(** * Liar's Poker (open_spiel/python/games/liars_poker.py)

    A shallow embedding of the Python rules engine and of its observer,
    and the properties of the specification checked against it.

    Python integers are [Z]; lists are [list]; the two numpy history
    matrices are lists of rows.  Operations that can raise return a
    [Result].  The classes of the source are modules of the same name. *)

From Stdlib Require Import ZArith Lia.
From stdpp Require Import base decidable option list list_numbers sorting strings pretty gmap.

Local Open Scope Z_scope.

(** ** Exceptions and the error monad *)

Inductive Exception : Set :=
  | AttributeError
  | AssertionError
  | IndexError
  | ZeroDivisionError
  | ValueError
  | TypeError
  | MemoryError
  | RuntimeError.

Inductive Result (A : Type) : Type :=
  | Ok (a : A)
  | Raise (e : Exception).
Arguments Ok {A} a.
Arguments Raise {A} e.

#[global] Instance Exception_eq_dec : EqDecision Exception.
Proof. solve_decision. Defined.

#[global] Instance Result_ret : MRet Result := fun A a => Ok a.
#[global] Instance Result_bind : MBind Result := fun A B f m =>
  match m with
  | Ok a => f a
  | Raise e => Raise e
  end.

(** [assert c] *)
Definition py_assert (c : bool) : Result unit :=
  if c then Ok tt else Raise AssertionError.

(** ** Python and numpy containers *)

(** An index [i] into a sequence of length [len]: a negative index counts
    from the end, anything outside [-len, len) is an [IndexError]. *)
Definition norm_index (len : nat) (i : Z) : Result nat :=
  if decide (0 ≤ i < Z.of_nat len) then Ok (Z.to_nat i)
  else if decide (- Z.of_nat len ≤ i < 0) then Ok (Z.to_nat (i + Z.of_nat len))
  else Raise IndexError.

(** [l[i]] *)
Definition py_getitem {A} (l : list A) (i : Z) : Result A :=
  k ← norm_index (length l) i;
  match l !! k with
  | Some x => Ok x
  | None => Raise IndexError
  end.

(** [l[i] = x] *)
Definition py_setitem {A} (l : list A) (i : Z) (x : A) : Result (list A) :=
  k ← norm_index (length l) i;
  Ok (<[k := x]> l).

(** [l[i].append(x)], for a list of lists *)
Definition py_append_at {A} (l : list (list A)) (i : Z) (x : A)
  : Result (list (list A)) :=
  row ← py_getitem l i;
  py_setitem l i (row ++ [x]).

(** [range(lo, hi)] *)
Definition py_range (lo hi : Z) : list Z := seqZ lo (hi - lo).

(** [[f(i) for i in r]], stopping at the first exception *)
Fixpoint py_comprehension {A B} (f : A → Result B) (r : list A) : Result (list B) :=
  match r with
  | [] => Ok []
  | i :: r' => x ← f i; xs ← py_comprehension f r'; Ok (x :: xs)
  end.

(** [np.zeros((rows, cols))].  numpy refuses negative dimensions with a
    [ValueError].  Whether it can allocate an array of the other sizes is
    the machine's answer and not the file's: [refused] is the exception
    numpy raises when it cannot ([ValueError] for a size it cannot address,
    [MemoryError] for one the machine cannot hold), [None] when the array is
    allocated. *)
Definition np_zeros2 (refused : option Exception) (rows cols : Z)
  : Result (list (list Z)) :=
  if decide (rows < 0 ∨ cols < 0) then Raise ValueError
  else
    match refused with
    | Some e => Raise e
    | None => Ok (replicate (Z.to_nat rows) (replicate (Z.to_nat cols) 0))
    end.

(** [np.zeros(n, np.float32)], the flat array of the observer: numpy
    refuses a negative size.  Its allocation is taken to succeed. *)
Definition np_zeros (n : Z) : Result (list Z) :=
  if decide (n < 0) then Raise ValueError
  else Ok (replicate (Z.to_nat n) 0).

(** A bound of the slice [a[start:stop]] of a sequence of [len] elements:
    a negative bound counts from the end, and the result is clipped to
    [0, len]. *)
Definition slice_bound (len : nat) (i : Z) : nat :=
  Z.to_nat (Z.min (Z.of_nat len)
              (Z.max 0 (if decide (i < 0) then i + Z.of_nat len else i))).

(** [a[start:stop]]: where the slice starts and how many elements it has
    (none when the bounds cross). *)
Definition py_slice (len : nat) (start stop : Z) : nat * nat :=
  let lo := slice_bound len start in
  let hi := slice_bound len stop in
  (lo, (hi - lo)%nat).

(** [a.reshape(shape)] for an array of [size] elements: the shape of the
    result.  One dimension may be -1 and is then inferred from the size;
    numpy raises [ValueError] for any other negative dimension, for a second
    -1, and when the shape does not hold exactly [size] elements. *)
Definition np_reshape (size : nat) (shape : list Z) : Result (list Z) :=
  if decide (Exists (fun d => d < -1) shape) then Raise ValueError
  else
    let known := filter (fun d => d ≠ -1) shape in
    let product := foldr Z.mul 1 known in
    match (length shape - length known)%nat with
    | 0%nat =>
        if decide (product = Z.of_nat size) then Ok shape
        else Raise ValueError
    | 1%nat =>
        if decide (product ≠ 0 ∧ Z.of_nat size `mod` product = 0)
        then Ok ((fun d => if decide (d = -1)
                           then Z.of_nat size `div` product else d) <$> shape)
        else Raise ValueError
    | _ => Raise ValueError
    end.

(** [m[i][j] = v] on a two-dimensional array *)
Definition np_setitem2 (m : list (list Z)) (i j v : Z) : Result (list (list Z)) :=
  row ← py_getitem m i;
  row' ← py_setitem row j v;
  py_setitem m i row'.

(** ** The framework's player identifiers and this file's action enum *)

(** [current_player] answers [pyspiel.PlayerId.TERMINAL],
    [pyspiel.PlayerId.CHANCE] or a player number. *)
Inductive PlayerId : Set :=
  | TERMINAL
  | CHANCE
  | Player (p : Z).

#[global] Instance PlayerId_eq_dec : EqDecision PlayerId.
Proof. solve_decision. Defined.

(** The framework's identifiers are integers, -4 for [TERMINAL] and -1 for
    [CHANCE], and Python compares them with a player number by value:
    [player == pyspiel.PlayerId.CHANCE] holds of the integer -1 as it does
    of the identifier. *)
Definition player_id (player : PlayerId) : Z :=
  match player with
  | TERMINAL => -4
  | CHANCE => -1
  | Player p => p
  end.

(** [class Action(enum.IntEnum)]: its members compare equal to their
    integer values, so [action == Action.CHALLENGE] is [action = 1]. *)
Module Action.
Definition BID : Z := 0.
Definition CHALLENGE : Z := 1.
End Action.

Definition _MAX_NUM_PLAYERS : Z := 10.
Definition _MIN_NUM_PLAYERS : Z := 2.
Definition _HAND_LENGTH : Z := 3.
Definition _NUM_DIGITS : Z := 3.
Definition _FULL_DECK : list Z := [1; 2; 3; 4; 5; 6; 7; 8; 9; 0].

(** ** The parameter object

    The constructor receives [params] from its caller and only calls its
    [get] method, passing the default by keyword:
    [params.get("num_players", default=_MIN_NUM_PLAYERS)]. *)
Record Params : Type := { get : string → Z → Result Z }.

(** A mapping whose [get] accepts the keyword form and answers the stored
    value, or the default for a missing key. *)
Definition keyword_mapping (m : gmap string Z) : Params :=
  {| get := fun k d => Ok (default d (m !! k)) |}.

(** Python's built-in [dict]: its [get] takes positional arguments only and
    refuses [default=...] with a [TypeError]. *)
Definition builtin_dict (m : gmap string Z) : Params :=
  {| get := fun _ _ => Raise TypeError |}.

(** ** class LiarsPoker *)

Module LiarsPoker.

Record t : Type := {
  deck : list Z;
  num_players : Z;
  hand_length : Z;
  num_digits : Z;
}.

(** [__init__(self, params=None)].  The first statement calls the
    inherited constructor,
    [super().__init__(_GAME_TYPE, _GAME_INFO, params or dict())], which is
    compiled code of the framework: [inherited] is what that call does, it
    returns or it raises (for parameter values the framework cannot take).
    [None] has no [get]. *)
Definition __init__ (inherited : Result unit) (params : option Params)
  : Result t :=
  _ ← inherited;
  match params with
  | None => Raise AttributeError
  | Some p =>
      n ← get p "num_digits" _NUM_DIGITS;
      deck ← py_comprehension (py_getitem _FULL_DECK) (py_range 0 n);
      num_players ← get p "num_players" _MIN_NUM_PLAYERS;
      hand_length ← get p "hand_length" _HAND_LENGTH;
      num_digits ← get p "num_digits" _NUM_DIGITS;
      Ok {| deck := deck; num_players := num_players;
            hand_length := hand_length; num_digits := num_digits |}
  end.

End LiarsPoker.

(** ** class LiarsPokerState *)

(** Two attributes are read by the methods below and assigned nowhere in
    the file: [self._is_terminal] (in [current_player]) and [self.actions]
    (in [_apply_action]).  Whatever they hold comes with the object from
    outside the file; [None] stands for an attribute that does not exist,
    whose read raises [AttributeError].  The file leaves both absent.

    The constructor also depends on numpy's allocator: [np_refuses k rows
    cols] is what numpy answers when the constructor asks for its [k]-th
    array, of [rows] by [cols] cells ([None] when it allocates it). *)
Record Inherited : Type := {
  base_is_terminal : option bool;
  base_actions : option (list (list Z));
  np_refuses : nat → Z → Z → option Exception;
}.

Module LiarsPokerState.

Record t : Type := {
  _num_players : Z;
  _hand_length : Z;
  _num_digits : Z;
  _deck : list Z;
  hands : list (list Z);
  bid_history : list (list Z);
  challenge_history : list (list Z);
  _current_player : Z;
  _bid_originator : Z;
  _current_bid : Z;
  _num_challenges : Z;
  is_rebid : bool;
  _game_over : bool;
  _winner : Z;
  _loser : Z;
  _is_terminal : option bool;
  actions : option (list (list Z));
}.

(** Attribute assignment, one function per attribute the methods write. *)
Definition set_hands (v : list (list Z)) (s : t) : t :=
  {| _num_players := _num_players s; _hand_length := _hand_length s;
     _num_digits := _num_digits s; _deck := _deck s; hands := v;
     bid_history := bid_history s; challenge_history := challenge_history s;
     _current_player := _current_player s;
     _bid_originator := _bid_originator s; _current_bid := _current_bid s;
     _num_challenges := _num_challenges s; is_rebid := is_rebid s;
     _game_over := _game_over s; _winner := _winner s; _loser := _loser s;
     _is_terminal := _is_terminal s; actions := actions s |}.

Definition set_bid_history (v : list (list Z)) (s : t) : t :=
  {| _num_players := _num_players s; _hand_length := _hand_length s;
     _num_digits := _num_digits s; _deck := _deck s; hands := hands s;
     bid_history := v; challenge_history := challenge_history s;
     _current_player := _current_player s;
     _bid_originator := _bid_originator s; _current_bid := _current_bid s;
     _num_challenges := _num_challenges s; is_rebid := is_rebid s;
     _game_over := _game_over s; _winner := _winner s; _loser := _loser s;
     _is_terminal := _is_terminal s; actions := actions s |}.

Definition set_challenge_history (v : list (list Z)) (s : t) : t :=
  {| _num_players := _num_players s; _hand_length := _hand_length s;
     _num_digits := _num_digits s; _deck := _deck s; hands := hands s;
     bid_history := bid_history s; challenge_history := v;
     _current_player := _current_player s;
     _bid_originator := _bid_originator s; _current_bid := _current_bid s;
     _num_challenges := _num_challenges s; is_rebid := is_rebid s;
     _game_over := _game_over s; _winner := _winner s; _loser := _loser s;
     _is_terminal := _is_terminal s; actions := actions s |}.

Definition set_current_player (v : Z) (s : t) : t :=
  {| _num_players := _num_players s; _hand_length := _hand_length s;
     _num_digits := _num_digits s; _deck := _deck s; hands := hands s;
     bid_history := bid_history s; challenge_history := challenge_history s;
     _current_player := v; _bid_originator := _bid_originator s;
     _current_bid := _current_bid s; _num_challenges := _num_challenges s;
     is_rebid := is_rebid s; _game_over := _game_over s;
     _winner := _winner s; _loser := _loser s;
     _is_terminal := _is_terminal s; actions := actions s |}.

Definition set_bid_originator (v : Z) (s : t) : t :=
  {| _num_players := _num_players s; _hand_length := _hand_length s;
     _num_digits := _num_digits s; _deck := _deck s; hands := hands s;
     bid_history := bid_history s; challenge_history := challenge_history s;
     _current_player := _current_player s; _bid_originator := v;
     _current_bid := _current_bid s; _num_challenges := _num_challenges s;
     is_rebid := is_rebid s; _game_over := _game_over s;
     _winner := _winner s; _loser := _loser s;
     _is_terminal := _is_terminal s; actions := actions s |}.

Definition set_current_bid (v : Z) (s : t) : t :=
  {| _num_players := _num_players s; _hand_length := _hand_length s;
     _num_digits := _num_digits s; _deck := _deck s; hands := hands s;
     bid_history := bid_history s; challenge_history := challenge_history s;
     _current_player := _current_player s;
     _bid_originator := _bid_originator s; _current_bid := v;
     _num_challenges := _num_challenges s; is_rebid := is_rebid s;
     _game_over := _game_over s; _winner := _winner s; _loser := _loser s;
     _is_terminal := _is_terminal s; actions := actions s |}.

Definition set_num_challenges (v : Z) (s : t) : t :=
  {| _num_players := _num_players s; _hand_length := _hand_length s;
     _num_digits := _num_digits s; _deck := _deck s; hands := hands s;
     bid_history := bid_history s; challenge_history := challenge_history s;
     _current_player := _current_player s;
     _bid_originator := _bid_originator s; _current_bid := _current_bid s;
     _num_challenges := v; is_rebid := is_rebid s;
     _game_over := _game_over s; _winner := _winner s; _loser := _loser s;
     _is_terminal := _is_terminal s; actions := actions s |}.

Definition set_is_rebid (v : bool) (s : t) : t :=
  {| _num_players := _num_players s; _hand_length := _hand_length s;
     _num_digits := _num_digits s; _deck := _deck s; hands := hands s;
     bid_history := bid_history s; challenge_history := challenge_history s;
     _current_player := _current_player s;
     _bid_originator := _bid_originator s; _current_bid := _current_bid s;
     _num_challenges := _num_challenges s; is_rebid := v;
     _game_over := _game_over s; _winner := _winner s; _loser := _loser s;
     _is_terminal := _is_terminal s; actions := actions s |}.

Definition set_game_over (v : bool) (s : t) : t :=
  {| _num_players := _num_players s; _hand_length := _hand_length s;
     _num_digits := _num_digits s; _deck := _deck s; hands := hands s;
     bid_history := bid_history s; challenge_history := challenge_history s;
     _current_player := _current_player s;
     _bid_originator := _bid_originator s; _current_bid := _current_bid s;
     _num_challenges := _num_challenges s; is_rebid := is_rebid s;
     _game_over := v; _winner := _winner s; _loser := _loser s;
     _is_terminal := _is_terminal s; actions := actions s |}.

Definition set_winner (v : Z) (s : t) : t :=
  {| _num_players := _num_players s; _hand_length := _hand_length s;
     _num_digits := _num_digits s; _deck := _deck s; hands := hands s;
     bid_history := bid_history s; challenge_history := challenge_history s;
     _current_player := _current_player s;
     _bid_originator := _bid_originator s; _current_bid := _current_bid s;
     _num_challenges := _num_challenges s; is_rebid := is_rebid s;
     _game_over := _game_over s; _winner := v; _loser := _loser s;
     _is_terminal := _is_terminal s; actions := actions s |}.

Definition set_loser (v : Z) (s : t) : t :=
  {| _num_players := _num_players s; _hand_length := _hand_length s;
     _num_digits := _num_digits s; _deck := _deck s; hands := hands s;
     bid_history := bid_history s; challenge_history := challenge_history s;
     _current_player := _current_player s;
     _bid_originator := _bid_originator s; _current_bid := _current_bid s;
     _num_challenges := _num_challenges s; is_rebid := is_rebid s;
     _game_over := _game_over s; _winner := _winner s; _loser := v;
     _is_terminal := _is_terminal s; actions := actions s |}.

Definition set_actions (v : option (list (list Z))) (s : t) : t :=
  {| _num_players := _num_players s; _hand_length := _hand_length s;
     _num_digits := _num_digits s; _deck := _deck s; hands := hands s;
     bid_history := bid_history s; challenge_history := challenge_history s;
     _current_player := _current_player s;
     _bid_originator := _bid_originator s; _current_bid := _current_bid s;
     _num_challenges := _num_challenges s; is_rebid := is_rebid s;
     _game_over := _game_over s; _winner := _winner s; _loser := _loser s;
     _is_terminal := _is_terminal s; actions := v |}.

(** [__init__(self, game)]: the attributes of a fresh state.  [base] is
    what [super().__init__(game)] brings along. *)
Definition __init__ (base : Inherited) (game : LiarsPoker.t) : Result t :=
  let total_possible_bets :=
    LiarsPoker.hand_length game * LiarsPoker.num_digits game
    * LiarsPoker.num_players game in
  bh ← np_zeros2
         (np_refuses base 0 total_possible_bets (LiarsPoker.num_players game))
         total_possible_bets (LiarsPoker.num_players game);
  ch ← np_zeros2
         (np_refuses base 1 total_possible_bets (LiarsPoker.num_players game))
         total_possible_bets (LiarsPoker.num_players game);
  Ok {| _num_players := LiarsPoker.num_players game;
        _hand_length := LiarsPoker.hand_length game;
        _num_digits := LiarsPoker.num_digits game;
        _deck := LiarsPoker.deck game;
        hands := replicate (Z.to_nat (LiarsPoker.num_players game)) [];
        bid_history := bh;
        challenge_history := ch;
        _current_player := 0;
        _bid_originator := 0;
        _current_bid := -1;
        _num_challenges := 0;
        is_rebid := false;
        _game_over := false;
        _winner := -1;
        _loser := -1;
        _is_terminal := base_is_terminal base;
        actions := base_actions base |}.

(** [current_player(self)]: the first test reads [self._is_terminal]. *)
Definition current_player (s : t) : Result PlayerId :=
  match _is_terminal s with
  | None => Raise AttributeError
  | Some true => Ok TERMINAL
  | Some false =>
      last_hand ← py_getitem (hands s) (_num_players s - 1);
      if decide (Z.of_nat (length last_hand) < _hand_length s) then Ok CHANCE
      else Ok (Player (_current_player s))
  end.

(** [is_chance_node()] is the framework's: the current player is the
    chance player, compared by value. *)
Definition is_chance_node (s : t) : Result bool :=
  p ← current_player s;
  Ok (bool_decide (player_id p = player_id CHANCE)).

Definition _is_challenge_possible (s : t) : bool :=
  bool_decide (_current_bid s ≠ -1).

Definition _is_rebid_possible (s : t) : bool :=
  negb (is_rebid s) && bool_decide (_num_challenges s = _num_players s - 1).

Definition _legal_actions (s : t) (player : Z) : Result (list Z) :=
  _ ← py_assert (bool_decide (0 ≤ player));
  let actions := [] in
  let actions :=
    if bool_decide (player ≠ _bid_originator s) || _is_rebid_possible s
    then actions ++ py_range (_current_bid s + 1)
                      (_hand_length s * _num_digits s * _num_players s)
    else actions in
  let actions :=
    if _is_challenge_possible s then actions ++ [Action.CHALLENGE]
    else actions in
  Ok actions.

Definition _decode_bid (s : t) (bid : Z) : Result (Z * Z) :=
  let block := _hand_length s * _num_players s in
  if decide (block = 0) then Raise ZeroDivisionError
  else
    let count := bid `mod` block in
    number ← py_getitem (_deck s) (bid `div` block);
    Ok (count, number).

(** The counting loops of [_counts]: one pass over the players, and for
    each a pass over the digits of the hand. *)
Definition count_in_hand (bid_number : Z) (matches : Z) (hand : list Z) : Z :=
  foldl (fun m digit => if decide (digit = bid_number) then m + 1 else m)
        matches hand.

Fixpoint count_over_players (hs : list (list Z)) (bid_number : Z)
    (player_ids : list Z) (matches : Z) : Result Z :=
  match player_ids with
  | [] => Ok matches
  | player_id :: rest =>
      hand ← py_getitem hs player_id;
      count_over_players hs bid_number rest (count_in_hand bid_number matches hand)
  end.

Definition _counts (s : t) : Result t :=
  '(bid_count, bid_number) ← _decode_bid s (_current_bid s);
  matches ← count_over_players (hands s) bid_number
              (py_range 0 (_num_players s)) 0;
  if decide (bid_count ≤ matches) then Ok (set_winner (_bid_originator s) s)
  else Ok (set_loser (_bid_originator s) s).

Definition _update_bid_history (bid player : Z) (s : t) : Result t :=
  bh ← np_setitem2 (bid_history s) bid player 1;
  Ok (set_bid_history bh s).

Definition _update_challenge_history (bid player : Z) (s : t) : Result t :=
  ch ← np_setitem2 (challenge_history s) bid player 1;
  Ok (set_challenge_history ch s).

(** [self.actions[self._current_player].append(action)] *)
Definition log_action (action : Z) (s : t) : Result t :=
  match actions s with
  | None => Raise AttributeError
  | Some log =>
      log' ← py_append_at log (_current_player s) action;
      Ok (set_actions (Some log') s)
  end.

(** The last statement of [_apply_action]. *)
Definition advance_player (s : t) : Result t :=
  if decide (_num_players s = 0) then Raise ZeroDivisionError
  else Ok (set_current_player
             ((_current_player s + 1) `mod` _num_players s) s).

Definition _apply_action (s : t) (action : Z) : Result t :=
  chance ← is_chance_node s;
  if (chance : bool) then
    (* the branch ends in [return]: the player is not advanced *)
    hs ← py_append_at (hands s) (_current_player s) action;
    Ok (set_hands hs s)
  else if decide (action = Action.CHALLENGE) then
    s ← log_action action s;
    _ ← py_assert (_is_challenge_possible s);
    s ← _update_challenge_history (_current_bid s) (_current_player s) s;
    let s := set_num_challenges (_num_challenges s + 1) s in
    s ← (if (negb (is_rebid s)
             && bool_decide (_num_challenges s = _num_players s))
            || (is_rebid s
                && bool_decide (_num_challenges s = _num_players s - 1))
         then s ← _counts s; Ok (set_game_over true s)
         else Ok s);
    advance_player s
  else
    s ← log_action action s;
    let s := set_current_bid action s in
    let s :=
      if decide (_current_player s = _bid_originator s)
      then set_is_rebid true s
      else set_is_rebid false s in
    let s := set_bid_originator (_current_player s) s in
    s ← _update_bid_history (_current_bid s) (_current_player s) s;
    let s := set_num_challenges 0 s in
    advance_player s.

Definition is_terminal (s : t) : bool := _game_over s.

(** [returns(self)].  The rewards are written [-1.0], [1.0], [0.0] and
    [self._num_players - 1]; all of them are integers. *)
Definition returns (s : t) : list Z :=
  let '(bidder_reward, others_reward) :=
    if decide (_winner s ≠ -1) then (_num_players s - 1, -1)
    else if decide (_loser s ≠ -1) then (-1 * (_num_players s - 1), 1)
    else (0, 0) in
  (fun player_id =>
     if decide (player_id ≠ _bid_originator s) then others_reward
     else bidder_reward) <$> py_range 0 (_num_players s).

(** Applying a sequence of actions, one after the other. *)
Fixpoint apply_actions (s : t) (acts : list Z) : Result t :=
  match acts with
  | [] => Ok s
  | a :: rest => s' ← _apply_action s a; apply_actions s' rest
  end.

(** The float [1.0 / n] of [chance_outcomes], kept as the division it
    is: no rounding is modelled, and [1.0 / 0] raises. *)
Inductive Probability : Set :=
  | one_over (n : Z).

(** [chance_outcomes(self)] *)
Definition chance_outcomes (s : t) : Result (list (Z * Probability)) :=
  chance ← is_chance_node s;
  _ ← py_assert chance;
  if decide (_num_digits s = 0) then Raise ZeroDivisionError
  else
    let probability := one_over (_num_digits s) in
    Ok ((fun digit => (digit, probability)) <$> _deck s).

(** [_action_to_string(self, player, action)]; [player] is compared with
    the chance identifier by value, and the f-string prints the integer in
    decimal. *)
Definition _action_to_string (player : PlayerId) (action : Z) : string :=
  if decide (player_id player = player_id CHANCE)
  then "Deal:" +:+ pretty action
  else if decide (action = Action.CHALLENGE) then "Challenge"
  else "Bet".

End LiarsPokerState.

(** [LiarsPoker.new_initial_state(self)] *)
Definition new_initial_state (base : Inherited) (game : LiarsPoker.t)
  : Result LiarsPokerState.t :=
  LiarsPokerState.__init__ base game.

(** ** class LiarsPokerObserver *)

(** The framework's observation type: the three flags the constructor
    reads. *)
Inductive PrivateInfoType : Set :=
  | NONE
  | SINGLE_PLAYER
  | ALL_PLAYERS.

#[global] Instance PrivateInfoType_eq_dec : EqDecision PrivateInfoType.
Proof. solve_decision. Defined.

Record IIGObservationType : Type := {
  public_info : bool;
  perfect_recall : bool;
  private_info : PrivateInfoType;
}.

Module LiarsPokerObserver.

(** What a name of [self.dict] is bound to.  The constructor binds every
    name to a view of the flat tensor, [self.tensor[index:index + size]]
    reshaped: writing an item of a view writes the tensor.  An assignment
    [self.dict[name] = value] binds the name to the value instead and leaves
    the tensor alone. *)
Inductive Entry : Type :=
  | View (index size : nat) (shape : list Z)
  | Digits (hand : list Z)
  | Flag (b : bool)
  | Matrix (m : list (list Z)).

Record t : Type := {
  num_players : Z;
  hand_length : Z;
  tensor : list Z;
  dict : gmap string Entry;
}.

Definition set_tensor (v : list Z) (o : t) : t :=
  {| num_players := num_players o; hand_length := hand_length o;
     tensor := v; dict := dict o |}.

Definition set_dict (v : gmap string Entry) (o : t) : t :=
  {| num_players := num_players o; hand_length := hand_length o;
     tensor := tensor o; dict := v |}.

(** The observation pieces: name, number of elements, shape. *)
Definition pieces (iig_obs_type : IIGObservationType)
    (num_players hand_length num_digits : Z) : list (string * Z * list Z) :=
  let pieces := [("player"%string, num_players, [num_players])] in
  let pieces :=
    if decide (private_info iig_obs_type = SINGLE_PLAYER)
    then pieces ++ [("private_hand"%string, hand_length, [hand_length])]
    else pieces in
  let pieces :=
    if public_info iig_obs_type then
      let pieces := pieces ++ [("rebid_state"%string, 1, [1])] in
      let pieces := pieces ++ [("counts_state"%string, 1, [1])] in
      if perfect_recall iig_obs_type then
        let total_possible_rounds := hand_length * num_digits * num_players in
        let pieces :=
          pieces ++ [("bid_history"%string,
                      total_possible_rounds * num_players,
                      [total_possible_rounds; num_players])] in
        pieces ++ [("challenge_history"%string,
                    total_possible_rounds * num_players,
                    [total_possible_rounds; num_players])]
      else pieces
    else pieces in
  pieces.

(** The loop that builds the named views,
    [self.dict[name] = self.tensor[index:index + size].reshape(shape)], with
    [index] running over a tensor of [len] cells.  A view is recorded by
    where its slice starts, how many cells the slice has, and the shape the
    slice was given. *)
Fixpoint build_views (len : nat) (ps : list (string * Z * list Z)) (index : Z)
    (d : gmap string Entry) : Result (gmap string Entry) :=
  match ps with
  | [] => Ok d
  | (name, size, shape) :: rest =>
      let '(start, cells) := py_slice len index (index + size) in
      shape ← np_reshape cells shape;
      build_views len rest (index + size) (<[name := View start cells shape]> d)
  end.

(** [__init__(self, iig_obs_type, num_players, hand_length, num_digits,
    params=None)]; [params] is not used. *)
Definition __init__ (iig_obs_type : IIGObservationType)
    (num_players hand_length num_digits : Z) : Result t :=
  let ps := pieces iig_obs_type num_players hand_length num_digits in
  let total_size := foldr Z.add 0 ((fun p => p.1.2) <$> ps) in
  tensor ← np_zeros total_size;
  dict ← build_views (length tensor) ps 0 ∅;
  Ok {| num_players := num_players;
        hand_length := hand_length;
        tensor := tensor;
        dict := dict |}.

(** [self.dict[name][i] = v]: through a one-dimensional view the write
    lands in the tensor. *)
Definition write_item (name : string) (i v : Z) (o : t) : Result t :=
  match dict o !! name with
  | Some (View index size [_]) =>
      k ← norm_index size i;
      Ok (set_tensor (<[(index + k)%nat := v]> (tensor o)) o)
  | Some (Digits hand) =>
      hand' ← py_setitem hand i v;
      Ok (set_dict (<[name := Digits hand']> (dict o)) o)
  | _ => Raise TypeError
  end.

(** [self.dict[name] = value] when [name in self.dict]. *)
Definition rebind (name : string) (value : Entry) (o : t) : t :=
  if decide (is_Some (dict o !! name))
  then set_dict (<[name := value]> (dict o)) o
  else o.

(** The private-hand statement of [set_from]: its right-hand side reads
    [self.hands], and the observer has the attributes [num_players],
    [hand_length], [tensor] and [dict] only. *)
Definition set_private_hand (state : LiarsPokerState.t) (player : Z) (o : t)
  : Result t :=
  if decide (is_Some (dict o !! "private_hand"%string)) then
    hand ← py_getitem (LiarsPokerState.hands state) player;
    if decide (Z.of_nat (length hand) = hand_length o)
    then Raise AttributeError
    else Ok o
  else Ok o.

(** [set_from(self, state, player)]: the observer as the call leaves it,
    and the exception that ended the call, if one did. *)
Definition set_from (o : t) (state : LiarsPokerState.t) (player : Z)
  : t * option Exception :=
  let o := set_tensor (replicate (length (tensor o)) 0) o in
  match (if decide (is_Some (dict o !! "player"%string))
         then write_item "player" player 1 o else Ok o) with
  | Raise e => (o, Some e)
  | Ok o =>
      match set_private_hand state player o with
      | Raise e => (o, Some e)
      | Ok o =>
          let o := rebind "rebid_state" (Flag (LiarsPokerState.is_rebid state)) o in
          let o := rebind "counts_state" (Flag (LiarsPokerState.is_terminal state)) o in
          let o := rebind "bid_history" (Matrix (LiarsPokerState.bid_history state)) o in
          let o := rebind "challenge_history"
                     (Matrix (LiarsPokerState.challenge_history state)) o in
          (o, None)
      end
  end.

(** The part of the flat tensor a name was given by the constructor. *)
Definition block (o : t) (name : string) : option (list Z) :=
  match dict o !! name with
  | Some (View index size _) => Some (take size (drop index (tensor o)))
  | _ => None
  end.

End LiarsPokerObserver.

(** ** Notions of the specification *)

Import LiarsPokerState.

(** [totalBids] *)
Definition total_bids (s : LiarsPokerState.t) : Z :=
  _hand_length s * _num_digits s * _num_players s.

(** The size of a digit's block of bids. *)
Definition block_size (s : LiarsPokerState.t) : Z :=
  _hand_length s * _num_players s.

(** The [encode] of the specification: the source has [_decode_bid] only, and
    the specification describes the inverse as implicit.  Block
    [digit_index] starts at [digit_index * block_size]. *)
Definition spec_encode (s : LiarsPokerState.t) (count digit_index : Z) : Z :=
  digit_index * block_size s + count.

(** Total occurrences of a digit across all players' hands. *)
Definition occurrences (digit : Z) (hs : list (list Z)) : Z :=
  Z.of_nat (length (filter (fun d => d = digit) (mjoin hs))).

(** The sum of a list of rewards. *)
Definition total_reward (rewards : list Z) : Z := foldr Z.add 0 rewards.

(** Entry [(i, j)] of a history matrix. *)
Definition entry (m : list (list Z)) (i j : Z) : option Z :=
  row ← m !! Z.to_nat i; row !! Z.to_nat j.

(** The shape of a history matrix. *)
Definition has_shape (m : list (list Z)) (rows cols : Z) : Prop :=
  length m = Z.to_nat rows ∧ Forall (fun r => length r = Z.to_nat cols) m.

(** What the constructor establishes for a sensible game and every
    transition keeps: sizes, index ranges and matrix shapes. *)
Definition well_formed (s : LiarsPokerState.t) : Prop :=
  0 < _num_players s ∧ 0 < _hand_length s ∧ 0 ≤ _num_digits s
  ∧ length (_deck s) = Z.to_nat (_num_digits s)
  ∧ length (hands s) = Z.to_nat (_num_players s)
  ∧ 0 ≤ _current_player s < _num_players s
  ∧ 0 ≤ _bid_originator s < _num_players s
  ∧ -1 ≤ _current_bid s < total_bids s
  ∧ has_shape (bid_history s) (total_bids s) (_num_players s)
  ∧ has_shape (challenge_history s) (total_bids s) (_num_players s).

(** [winner] and [loser] are set together with [gameOver], and never
    both. *)
Definition outcome_consistent (s : LiarsPokerState.t) : Prop :=
  (_game_over s = false → _winner s = -1 ∧ _loser s = -1)
  ∧ (_winner s = -1 ∨ _loser s = -1).

(** The states the framework's loop drives a game through from [start]:
    it applies an action (a chance outcome, a bid or [CHALLENGE], none of
    them negative) as long as [is_terminal] is false. *)
Inductive reachable_from (start : LiarsPokerState.t) : LiarsPokerState.t → Prop :=
  | reachable_start : reachable_from start start
  | reachable_step (s s' : LiarsPokerState.t) (a : Z) :
      reachable_from start s →
      is_terminal s = false → 0 ≤ a →
      _apply_action s a = Ok s' →
      reachable_from start s'.

(** The inherited action log can take an entry of every player. *)
Definition log_ready (s : LiarsPokerState.t) : Prop :=
  match actions s with
  | Some log => length log = Z.to_nat (_num_players s)
  | None => False
  end.

(** The resolution trigger of the specification, for the state in which
    the challenge is applied. *)
Definition resolves (s : LiarsPokerState.t) : Prop :=
  (is_rebid s = false ∧ _num_challenges s + 1 = _num_players s)
  ∨ (is_rebid s = true ∧ _num_challenges s + 1 = _num_players s - 1).

#[global] Instance has_shape_dec m rows cols : Decision (has_shape m rows cols).
Proof. unfold has_shape. apply _. Defined.

#[global] Instance well_formed_dec s : Decision (well_formed s).
Proof. unfold well_formed. apply _. Defined.

#[global] Instance outcome_consistent_dec s : Decision (outcome_consistent s).
Proof. unfold outcome_consistent. apply _. Defined.

#[global] Instance log_ready_dec s : Decision (log_ready s).
Proof. unfold log_ready. destruct (actions s); apply _. Defined.

#[global] Instance resolves_dec s : Decision (resolves s).
Proof. unfold resolves. apply _. Defined.

(** ** Concrete games and states used in the examples *)

(** Two players, one digit per hand, the deck [1; 2]: four bids, in two
    blocks of two. *)
Definition small_game : LiarsPoker.t :=
  {| LiarsPoker.deck := [1; 2]; LiarsPoker.num_players := 2;
     LiarsPoker.hand_length := 1; LiarsPoker.num_digits := 2 |}.

(** Two players, one digit per hand, the one-digit deck [1]. *)
Definition one_digit_game : LiarsPoker.t :=
  {| LiarsPoker.deck := [1]; LiarsPoker.num_players := 2;
     LiarsPoker.hand_length := 1; LiarsPoker.num_digits := 1 |}.

(** A base object whose [_is_terminal] reads [v] and whose action log has
    one empty list per player, on a machine where numpy allocates what it is
    asked for. *)
Definition base_with (v : option bool) : Inherited :=
  {| base_is_terminal := v; base_actions := Some [[]; []];
     np_refuses := fun _ _ _ => None |}.

(** The base object as the file leaves it: neither attribute exists. *)
Definition bare_base : Inherited :=
  {| base_is_terminal := None; base_actions := None;
     np_refuses := fun _ _ _ => None |}.

(** The fresh state of a game, as a record (the constructor's result for
    [small_game] is shown equal to it below). *)
Definition fresh (v : option bool) (game : LiarsPoker.t) (total : nat)
  : LiarsPokerState.t :=
  {| _num_players := LiarsPoker.num_players game;
     _hand_length := LiarsPoker.hand_length game;
     _num_digits := LiarsPoker.num_digits game;
     _deck := LiarsPoker.deck game;
     hands := [[]; []];
     bid_history := replicate total [0; 0];
     challenge_history := replicate total [0; 0];
     _current_player := 0; _bid_originator := 0; _current_bid := -1;
     _num_challenges := 0; is_rebid := false; _game_over := false;
     _winner := -1; _loser := -1;
     _is_terminal := v; actions := Some [[]; []] |}.

(** Both hands dealt [[1]], no bid yet: the state in which bidding starts
    when each player has received the digit 1. *)
Definition dealt (v : option bool) (game : LiarsPoker.t) (total : nat)
  : LiarsPokerState.t :=
  set_hands [[1]; [1]] (fresh v game total).

(** Player 0 has bid 0 (the first slot of the block of digit 1) and it is
    player 1's turn: what [_apply_action] makes of [dealt] and the bid 0. *)
Definition after_first_bid (v : option bool) : LiarsPokerState.t :=
  set_current_player 1
    (set_bid_history [[1; 0]; [0; 0]; [0; 0]; [0; 0]]
       (set_is_rebid true
          (set_current_bid 0
             (set_actions (Some [[0]; []]) (dealt v small_game 4))))).

(** Player 1 has then challenged and the game is resolved: [gameOver] is
    set and player 0 has won. *)
Definition resolved (v : option bool) : LiarsPokerState.t :=
  set_current_player 0
    (set_game_over true
       (set_winner 0
          (set_num_challenges 1
             (set_challenge_history [[0; 1]; [0; 0]; [0; 0]; [0; 0]]
                (set_actions (Some [[0]; [1]]) (after_first_bid v)))))).

(** The game of the example in the docstring of [_decode_bid]: two
    players, two digits each, the deck [1; 2; 3]. *)
Definition docstring_game : LiarsPoker.t :=
  {| LiarsPoker.deck := [1; 2; 3]; LiarsPoker.num_players := 2;
     LiarsPoker.hand_length := 2; LiarsPoker.num_digits := 3 |}.




Definition single_player_view : IIGObservationType :=
  {| public_info := true; perfect_recall := false;
     private_info := SINGLE_PLAYER |}.

(** ** Further notions *)

(** What is left to play: the bids above the standing one, each worth a
    full round of challenges, and the challenges the standing bid can still
    take. *)
Definition progress_measure (s : LiarsPokerState.t) : Z :=
  (total_bids s - 1 - _current_bid s) * (_num_players s + 1)
  + (_num_players s - _num_challenges s).

(** The challenge counter stays below the count that resolves the game
    for as long as the game is not over. *)
Definition challenges_bounded (s : LiarsPokerState.t) : Prop :=
  0 ≤ _num_challenges s ≤ _num_players s
  ∧ (_game_over s = false →
     _num_challenges s < if is_rebid s then _num_players s - 1 else _num_players s).

#[global] Instance challenges_bounded_dec s : Decision (challenges_bounded s).
Proof. unfold challenges_bounded. apply _. Defined.



(** The names [set_from] rebinds. *)
Definition public_names : list string :=
  ["rebid_state"; "counts_state"; "bid_history"; "challenge_history"]%string.

(** Two observers that [set_from] cannot tell apart: the same sizes, the
    same tensor length, the same bindings of the names [set_from] does not
    rebind, and the same names bound. *)
Definition same_views (o o' : LiarsPokerObserver.t) : Prop :=
  LiarsPokerObserver.num_players o' = LiarsPokerObserver.num_players o
  ∧ LiarsPokerObserver.hand_length o' = LiarsPokerObserver.hand_length o
  ∧ length (LiarsPokerObserver.tensor o') = length (LiarsPokerObserver.tensor o)
  ∧ (∀ name, name ∉ public_names →
       LiarsPokerObserver.dict o' !! name = LiarsPokerObserver.dict o !! name)
  ∧ (∀ name, is_Some (LiarsPokerObserver.dict o' !! name)
             ↔ is_Some (LiarsPokerObserver.dict o !! name)).

(** * Properties *)

(** A decidable hypothesis about a concrete state, settled by evaluating
    its decision procedure. *)
Ltac by_decide := apply (bool_decide_unpack _); vm_compute; exact I.

(** ** Containers *)

Lemma norm_index_in_range (len : nat) (i : Z) :
  0 ≤ i < Z.of_nat len → norm_index len i = Ok (Z.to_nat i).
Proof. intros H. unfold norm_index. rewrite decide_True; done. Qed.

Lemma norm_index_ok (len : nat) (i : Z) (k : nat) :
  norm_index len i = Ok k → (k < len)%nat ∧ - Z.of_nat len ≤ i < Z.of_nat len.
Proof.
  unfold norm_index. intros H.
  repeat case_decide; simplify_eq; lia.
Qed.

Lemma py_getitem_in_range {A} (l : list A) (i : Z) (x : A) :
  0 ≤ i → l !! Z.to_nat i = Some x → py_getitem l i = Ok x.
Proof.
  intros Hi Hx. unfold py_getitem.
  rewrite norm_index_in_range; [simpl; by rewrite Hx|].
  apply lookup_lt_Some in Hx. lia.
Qed.

Lemma py_setitem_in_range {A} (l : list A) (i : Z) (x : A) :
  0 ≤ i < Z.of_nat (length l) → py_setitem l i x = Ok (<[Z.to_nat i := x]> l).
Proof. intros Hi. unfold py_setitem. by rewrite norm_index_in_range. Qed.

Lemma py_setitem_length {A} (l l' : list A) (i : Z) (x : A) :
  py_setitem l i x = Ok l' → length l' = length l.
Proof.
  unfold py_setitem. destruct (norm_index _ _); simpl; [|done].
  intros [= <-]. apply length_insert.
Qed.

Lemma py_append_at_in_range {A} (l : list (list A)) (i : Z) (row : list A) (x : A) :
  0 ≤ i → l !! Z.to_nat i = Some row →
  py_append_at l i x = Ok (<[Z.to_nat i := row ++ [x]]> l).
Proof.
  intros Hi Hrow. unfold py_append_at.
  rewrite (py_getitem_in_range _ _ _ Hi Hrow). simpl.
  apply py_setitem_in_range. apply lookup_lt_Some in Hrow. lia.
Qed.

Lemma py_append_at_length {A} (l l' : list (list A)) (i : Z) (x : A) :
  py_append_at l i x = Ok l' → length l' = length l.
Proof.
  unfold py_append_at. destruct (py_getitem l i); simpl; [|done].
  apply py_setitem_length.
Qed.

Lemma elem_of_py_range (lo hi b : Z) : b ∈ py_range lo hi ↔ lo ≤ b < hi.
Proof. unfold py_range. rewrite elem_of_seqZ. lia. Qed.

Lemma np_setitem2_in_range (m : list (list Z)) (i j v : Z) (row : list Z) :
  0 ≤ i → m !! Z.to_nat i = Some row → 0 ≤ j < Z.of_nat (length row) →
  np_setitem2 m i j v = Ok (<[Z.to_nat i := <[Z.to_nat j := v]> row]> m).
Proof.
  intros Hi Hrow Hj. unfold np_setitem2.
  rewrite (py_getitem_in_range _ _ _ Hi Hrow). simpl.
  rewrite (py_setitem_in_range row j v Hj). simpl.
  apply py_setitem_in_range. apply lookup_lt_Some in Hrow. lia.
Qed.

Lemma np_setitem2_shape (m m' : list (list Z)) (i j v rows cols : Z) :
  has_shape m rows cols → np_setitem2 m i j v = Ok m' → has_shape m' rows cols.
Proof.
  intros [Hlen Hrows]. unfold np_setitem2, py_getitem, py_setitem.
  destruct (norm_index (length m) i) as [k|] eqn:Hk; simpl; [|done].
  destruct (m !! k) as [row|] eqn:Hrow; simpl; [|done].
  destruct (norm_index (length row) j) as [k'|]; simpl; [|done].
  intros [= <-]. split.
  - by rewrite length_insert.
  - apply Forall_insert; [done|]. rewrite length_insert.
    by eapply (Forall_lookup_1 _ _ _ _ Hrows).
Qed.

(** ** Bid codec *)

Lemma total_bids_blocks (s : LiarsPokerState.t) :
  total_bids s = block_size s * _num_digits s.
Proof. unfold total_bids, block_size. ring. Qed.

Lemma bid_digit_index_range (s : LiarsPokerState.t) (bid : Z) :
  0 < block_size s → 0 ≤ bid < total_bids s →
  0 ≤ bid `div` block_size s < _num_digits s.
Proof.
  intros Hblock Hbid. rewrite total_bids_blocks in Hbid. split.
  - apply Z.div_pos; lia.
  - apply Z.div_lt_upper_bound; lia.
Qed.

(** [_decode_bid] on an identifier of the bid space. *)
Lemma decode_bid_eq (s : LiarsPokerState.t) (bid : Z) :
  0 < block_size s →
  length (_deck s) = Z.to_nat (_num_digits s) →
  0 ≤ bid < total_bids s →
  ∃ digit,
    _decode_bid s bid = Ok (bid `mod` block_size s, digit)
    ∧ _deck s !! Z.to_nat (bid `div` block_size s) = Some digit.
Proof.
  intros Hblock Hdeck Hbid.
  pose proof (bid_digit_index_range s bid Hblock Hbid) as Hq.
  destruct (lookup_lt_is_Some_2 (_deck s) (Z.to_nat (bid `div` block_size s)))
    as [digit Hdigit]; [lia|].
  exists digit. split; [|done].
  unfold _decode_bid. fold (block_size s).
  rewrite decide_False by lia.
  by rewrite (py_getitem_in_range _ _ digit) by (done || lia).
Qed.

(** C10: for every bid identifier in [0, totalBids), [_decode_bid] yields
    the count [bid mod (handLength * numPlayers)] and the digit
    [deck[bid div (handLength * numPlayers)]]; re-encoding the count and the
    digit index gives the identifier back, and every pair of a count below
    the block size and a digit index below [numDigits] is the decoding of its
    encoding, which lies in [0, totalBids): the two maps are inverse
    bijections. *)
Theorem decode_bid_bijection (s : LiarsPokerState.t) (bid : Z) :
  0 < block_size s →
  length (_deck s) = Z.to_nat (_num_digits s) →
  0 ≤ bid < total_bids s →
  (∃ digit,
     _decode_bid s bid = Ok (bid `mod` block_size s, digit)
     ∧ _deck s !! Z.to_nat (bid `div` block_size s) = Some digit)
  ∧ 0 ≤ bid `mod` block_size s < block_size s
  ∧ 0 ≤ bid `div` block_size s < _num_digits s
  ∧ spec_encode s (bid `mod` block_size s) (bid `div` block_size s) = bid
  ∧ ∀ count digit_index,
      0 ≤ count < block_size s → 0 ≤ digit_index < _num_digits s →
      0 ≤ spec_encode s count digit_index < total_bids s
      ∧ spec_encode s count digit_index `mod` block_size s = count
      ∧ spec_encode s count digit_index `div` block_size s = digit_index.
Proof.
  intros Hblock Hdeck Hbid.
  pose proof (bid_digit_index_range s bid Hblock Hbid) as Hq.
  rewrite total_bids_blocks in *.
  split; [|split; [|split; [|split]]].
  - rewrite <- total_bids_blocks in Hbid. by apply decode_bid_eq.
  - apply Z.mod_pos_bound; lia.
  - exact Hq.
  - unfold spec_encode. rewrite Z.mul_comm. symmetry. apply Z.div_mod. lia.
  - intros count digit_index Hcount Hindex. unfold spec_encode.
    split; [|split].
    + nia.
    + rewrite Z.add_comm, Z.mod_add by lia. apply Z.mod_small; lia.
    + rewrite Z.add_comm, Z.div_add by lia.
      rewrite Z.div_small by lia. lia.
Qed.

(** The bijection at bid 3 of the four-bid game: the count is 1 and the
    digit is 2, the second of the deck. *)
Lemma decode_bid_bijection_witness :
  _decode_bid (dealt (Some false) small_game 4) 3 = Ok (1, 2)
  ∧ spec_encode (dealt (Some false) small_game 4) 1 1 = 3.
Proof.
  destruct (decode_bid_bijection (dealt (Some false) small_game 4) 3)
    as ((digit & Hdecode & Hdigit) & _ & _ & Hencode & _).
  - vm_compute. reflexivity.
  - reflexivity.
  - vm_compute. split; [discriminate | reflexivity].
  - split; [|exact Hencode].
    rewrite Hdecode. vm_compute in Hdigit. by injection Hdigit as <-.
Defined.

(** ** Legal actions *)

(** The list [_legal_actions] builds, the two appends in one expression. *)
Lemma legal_actions_eq (s : LiarsPokerState.t) (p : Z) :
  0 ≤ p →
  _legal_actions s p
  = Ok ((if bool_decide (p ≠ _bid_originator s) || _is_rebid_possible s
         then py_range (_current_bid s + 1) (total_bids s) else [])
        ++ if decide (_current_bid s ≠ -1) then [Action.CHALLENGE] else []).
Proof.
  intros Hp. unfold _legal_actions, py_assert, _is_challenge_possible.
  rewrite (bool_decide_eq_true_2 (0 ≤ p)) by done. simpl. fold (total_bids s).
  destruct (decide (_current_bid s ≠ -1)).
  - by rewrite (bool_decide_eq_true_2 (_current_bid s ≠ -1)).
  - rewrite (bool_decide_eq_false_2 (_current_bid s ≠ -1)) by done.
    by rewrite app_nil_r.
Qed.

(** X22: for a player [p >= 0] the list of legal actions is a bid portion
    followed by [CHALLENGE] exactly when [currentBid] is not -1.  If [p] is
    not the bid originator, or a rebid is possible ([numChallenges] is
    [numPlayers - 1] and no rebid is in progress), the bid portion holds
    exactly the identifiers strictly between [currentBid] and [totalBids],
    which is all of [0, totalBids) when [currentBid] is -1.  The bid portion
    never holds an identifier at or below [currentBid], and holds none
    twice. *)
Theorem legal_actions_structure (s : LiarsPokerState.t) (p : Z) :
  0 ≤ p →
  ∃ bids,
    _legal_actions s p
    = Ok (bids ++ if decide (_current_bid s ≠ -1) then [Action.CHALLENGE] else [])
    ∧ (p ≠ _bid_originator s
       ∨ (_num_challenges s = _num_players s - 1 ∧ is_rebid s = false) →
       (∀ b, b ∈ bids ↔ _current_bid s < b < total_bids s)
       ∧ (_current_bid s = -1 → ∀ b, b ∈ bids ↔ 0 ≤ b < total_bids s))
    ∧ (∀ b, b ∈ bids → _current_bid s < b)
    ∧ NoDup bids.
Proof.
  intros Hp. rewrite (legal_actions_eq s p Hp). unfold _is_rebid_possible.
  destruct (bool_decide (p ≠ _bid_originator s)
            || negb (is_rebid s)
               && bool_decide (_num_challenges s = _num_players s - 1)) eqn:Hcond.
  - exists (py_range (_current_bid s + 1) (total_bids s)).
    split; [done|]. split; [|split].
    + intros _. split.
      * intros b. rewrite elem_of_py_range. lia.
      * intros Hnone b. rewrite elem_of_py_range. lia.
    + intros b. rewrite elem_of_py_range. lia.
    + apply NoDup_seqZ.
  - exists []. split; [done|]. split; [|split].
    + intros Hlegal. exfalso.
      apply orb_false_iff in Hcond as [Hne Hrebid].
      apply bool_decide_eq_false in Hne.
      destruct Hlegal as [Hother | [Hall Hnot]]; [done|].
      rewrite Hnot, bool_decide_eq_true_2 in Hrebid; done.
    + intros b Hb. by apply elem_of_nil in Hb.
    + apply NoDup_nil_2.
Qed.

(** Player 1 after player 0's bid 0 in the four-bid game: bids above 0,
    none twice, and then [CHALLENGE]. *)
Lemma legal_actions_structure_witness :
  ∃ bids,
    _legal_actions (after_first_bid (Some false)) 1
    = Ok (bids ++ [Action.CHALLENGE])
    ∧ (∀ b, b ∈ bids → 0 < b)
    ∧ NoDup bids.
Proof.
  destruct (legal_actions_structure (after_first_bid (Some false)) 1)
    as (bids & Hlegal & _ & Habove & Hnodup); [lia|].
  exists bids. split; [exact Hlegal|]. split; [exact Habove | exact Hnodup].
Defined.



(** ** Counting the matches *)

Lemma count_in_hand_filter (digit matches : Z) (hand : list Z) :
  count_in_hand digit matches hand
  = matches + Z.of_nat (length (filter (fun d => d = digit) hand)).
Proof.
  unfold count_in_hand. revert matches.
  induction hand as [|d hand IH]; intros matches; simpl.
  - lia.
  - rewrite IH, filter_cons. destruct (decide (d = digit)); simpl; lia.
Qed.

Lemma occurrences_cons (digit : Z) (hand : list Z) (hs : list (list Z)) :
  occurrences digit (hand :: hs)
  = Z.of_nat (length (filter (fun d => d = digit) hand)) + occurrences digit hs.
Proof. unfold occurrences. simpl. rewrite filter_app, length_app. lia. Qed.

Lemma count_over_players_from (hs : list (list Z)) (digit : Z) (m k : nat)
    (matches : Z) :
  (k + m = length hs)%nat →
  count_over_players hs digit (seqZ (Z.of_nat k) (Z.of_nat m)) matches
  = Ok (matches + occurrences digit (drop k hs)).
Proof.
  revert k matches. induction m as [|m IH]; intros k matches Hlen.
  - rewrite seqZ_nil by lia. rewrite drop_ge by lia. simpl.
    unfold occurrences. simpl. f_equal. lia.
  - rewrite seqZ_cons by lia. simpl.
    destruct (lookup_lt_is_Some_2 hs k) as [hand Hhand]; [lia|].
    rewrite (py_getitem_in_range hs (Z.of_nat k) hand)
      by (lia || by rewrite Nat2Z.id).
    simpl. replace (Z.succ (Z.of_nat k)) with (Z.of_nat (S k)) by lia.
    replace (Z.pred (Z.of_nat (S m))) with (Z.of_nat m) by lia.
    rewrite IH by lia.
    rewrite (drop_S hs hand k Hhand), occurrences_cons, count_in_hand_filter.
    f_equal. lia.
Qed.

(** The two loops of [_counts] compute the total number of occurrences. *)
Lemma count_over_players_all (hs : list (list Z)) (digit n : Z) :
  0 ≤ n → length hs = Z.to_nat n →
  count_over_players hs digit (py_range 0 n) 0 = Ok (occurrences digit hs).
Proof.
  intros Hn Hlen. unfold py_range.
  replace (n - 0) with (Z.of_nat (length hs)) by lia.
  change 0 with (Z.of_nat 0) at 1.
  rewrite count_over_players_from by lia. by rewrite drop_0.
Qed.

Lemma counts_eq (s : LiarsPokerState.t) (count digit : Z) :
  0 ≤ _num_players s → length (hands s) = Z.to_nat (_num_players s) →
  _decode_bid s (_current_bid s) = Ok (count, digit) →
  _counts s
  = Ok (if decide (count ≤ occurrences digit (hands s))
        then set_winner (_bid_originator s) s
        else set_loser (_bid_originator s) s).
Proof.
  intros Hn Hlen Hdecode. unfold _counts. rewrite Hdecode. simpl.
  rewrite count_over_players_all by done. simpl.
  by destruct (decide (count ≤ occurrences digit (hands s))).
Qed.

(** ** Phases *)

Lemma current_player_player (s : LiarsPokerState.t) (p : Z) :
  current_player s = Ok (Player p) →
  _is_terminal s = Some false ∧ p = _current_player s
  ∧ (p ≠ -1 → is_chance_node s = Ok false).
Proof.
  unfold is_chance_node, current_player.
  destruct (_is_terminal s) as [[|]|]; [done| |done].
  destruct (py_getitem (hands s) (_num_players s - 1)) as [h|]; simpl; [|done].
  destruct (decide (Z.of_nat (length h) < _hand_length s)); [done|].
  intros [= <-]. split; [done|]. split; [done|].
  intros Hne. simpl. by rewrite bool_decide_eq_false_2.
Qed.

Lemma decode_bid_ok (s : LiarsPokerState.t) :
  well_formed s → _current_bid s ≠ -1 →
  ∃ count digit, _decode_bid s (_current_bid s) = Ok (count, digit).
Proof.
  intros (Hn & Hhl & Hnd & Hdeck & _ & _ & _ & Hbid & _) Hne.
  destruct (decode_bid_eq s (_current_bid s)) as (digit & Hd & _).
  - unfold block_size. lia.
  - done.
  - lia.
  - eauto.
Qed.

(** ** Challenge *)

Lemma entry_insert_eq (m : list (list Z)) (row : list Z) (i j v : Z) :
  0 ≤ i → 0 ≤ j < Z.of_nat (length row) → m !! Z.to_nat i = Some row →
  entry (<[Z.to_nat i := <[Z.to_nat j := v]> row]> m) i j = Some v.
Proof.
  intros Hi Hj Hrow. unfold entry.
  rewrite list_lookup_insert_eq by (apply lookup_lt_Some in Hrow; lia).
  simpl. apply list_lookup_insert_eq. lia.
Qed.

Lemma entry_insert_ne (m : list (list Z)) (row : list Z) (i j i' j' v : Z) :
  0 ≤ i → 0 ≤ j → 0 ≤ i' → 0 ≤ j' → i' ≠ i ∨ j' ≠ j →
  m !! Z.to_nat i = Some row →
  entry (<[Z.to_nat i := <[Z.to_nat j := v]> row]> m) i' j' = entry m i' j'.
Proof.
  intros Hi Hj Hi' Hj' Hne Hrow. unfold entry.
  destruct (decide (i' = i)) as [->|Hrow_ne].
  - rewrite list_lookup_insert_eq by (apply lookup_lt_Some in Hrow; lia).
    rewrite Hrow. simpl. apply list_lookup_insert_ne. lia.
  - rewrite list_lookup_insert_ne by lia. done.
Qed.

Lemma resolves_bool (s : LiarsPokerState.t) :
  negb (is_rebid s) && bool_decide (_num_challenges s + 1 = _num_players s)
  || is_rebid s && bool_decide (_num_challenges s + 1 = _num_players s - 1)
  = bool_decide (resolves s).
Proof.
  destruct (decide (resolves s)) as [Hres | Hres].
  - rewrite (bool_decide_eq_true_2 _ Hres).
    destruct Hres as [[-> Hnum] | [-> Hnum]]; simpl;
      by rewrite bool_decide_eq_true_2.
  - rewrite (bool_decide_eq_false_2 _ Hres). unfold resolves in Hres.
    destruct (is_rebid s); simpl; rewrite ?orb_false_r;
      apply bool_decide_eq_false_2; intros Hnum; apply Hres; auto.
Qed.

Lemma advance_player_eq (s : LiarsPokerState.t) :
  0 < _num_players s →
  advance_player s
  = Ok (set_current_player ((_current_player s + 1) `mod` _num_players s) s).
Proof. intros Hn. unfold advance_player. rewrite decide_False by lia. done. Qed.

(** X21: with the two inherited attributes in place ([_is_terminal]
    reading false, the action log holding a list per player), a challenge by
    the acting player [p] of a well-formed state, with a bid standing,
    records [challengeHistory[currentBid][p] := 1] (no other entry changes)
    and increments [numChallenges].  The game resolves exactly when the
    trigger holds (no rebid and the new count is [numPlayers], or a rebid and
    the new count is [numPlayers - 1]): then [gameOver] is set, and the
    originator becomes the winner if the occurrences of the bid's digit
    [deck[currentBid div block]] in all hands reach the count [currentBid mod
    block], the loser otherwise.  When the trigger does not hold nothing is
    resolved and the turn passes to [(p + 1) mod numPlayers].  The bid, the
    originator, the rebid flag, the hands and the bid history stay as they
    are. *)
Theorem challenge_transition (s : LiarsPokerState.t) (p : Z) :
  well_formed s → log_ready s →
  current_player s = Ok (Player p) →
  _current_bid s ≠ -1 →
  ∃ s' count digit,
    _apply_action s Action.CHALLENGE = Ok s'
    ∧ _decode_bid s (_current_bid s) = Ok (count, digit)
    ∧ count = _current_bid s `mod` block_size s
    ∧ _deck s !! Z.to_nat (_current_bid s `div` block_size s) = Some digit
    ∧ entry (challenge_history s') (_current_bid s) p = Some 1
    ∧ (∀ i j, 0 ≤ i → 0 ≤ j → i ≠ _current_bid s ∨ j ≠ p →
         entry (challenge_history s') i j = entry (challenge_history s) i j)
    ∧ _num_challenges s' = _num_challenges s + 1
    ∧ (resolves s →
         _game_over s' = true
         ∧ (count ≤ occurrences digit (hands s) →
              _winner s' = _bid_originator s ∧ _loser s' = _loser s)
         ∧ (occurrences digit (hands s) < count →
              _loser s' = _bid_originator s ∧ _winner s' = _winner s))
    ∧ (¬ resolves s →
         _game_over s' = _game_over s
         ∧ _winner s' = _winner s ∧ _loser s' = _loser s
         ∧ _current_player s' = (p + 1) `mod` _num_players s)
    ∧ _current_bid s' = _current_bid s
    ∧ _bid_originator s' = _bid_originator s
    ∧ is_rebid s' = is_rebid s
    ∧ hands s' = hands s
    ∧ bid_history s' = bid_history s.
Proof.
  intros Hwf Hlog Hplayer Hbid.
  destruct Hwf as (Hn & Hhl & Hnd & Hdeck & Hhands & Hcp & Horig & Hcb
                   & Hbh & [Hch_len Hch_rows]).
  destruct (decode_bid_eq s (_current_bid s)) as (digit & Hdecode & Hdigit);
    [unfold block_size; lia | done | lia |].
  set (count := _current_bid s `mod` block_size s) in *.
  apply current_player_player in Hplayer as (Hterm & -> & Hchance).
  specialize (Hchance ltac:(lia)).
  unfold log_ready in Hlog.
  destruct (actions s) as [log|] eqn:Hactions; [|done].
  destruct (lookup_lt_is_Some_2 log (Z.to_nat (_current_player s)))
    as [mine Hmine]; [lia|].
  destruct (lookup_lt_is_Some_2 (challenge_history s) (Z.to_nat (_current_bid s)))
    as [row Hrow]; [lia|].
  assert (Hrow_len : length row = Z.to_nat (_num_players s))
    by exact (Forall_lookup_1 _ _ _ _ Hch_rows Hrow).
  unfold _apply_action. rewrite Hchance. simpl.
  unfold log_action. rewrite Hactions.
  rewrite (py_append_at_in_range log _ mine) by (done || lia). simpl.
  unfold _is_challenge_possible at 1. simpl.
  rewrite (bool_decide_eq_true_2 (_current_bid s ≠ -1)) by done. simpl.
  unfold _update_challenge_history. simpl.
  rewrite (np_setitem2_in_range _ _ _ _ row) by (done || lia). simpl.
  rewrite resolves_bool.
  exists
    (set_current_player ((_current_player s + 1) `mod` _num_players s)
       (let s1 :=
          set_num_challenges (_num_challenges s + 1)
            (set_challenge_history
               (<[Z.to_nat (_current_bid s) :=
                    <[Z.to_nat (_current_player s) := 1]> row]>
                  (challenge_history s))
               (set_actions
                  (Some (<[Z.to_nat (_current_player s) :=
                             mine ++ [Action.CHALLENGE]]> log)) s)) in
        if decide (resolves s) then
          set_game_over true
            (if decide (count ≤ occurrences digit (hands s))
             then set_winner (_bid_originator s) s1
             else set_loser (_bid_originator s) s1)
        else s1)), count, digit.
  split.
  { destruct (decide (resolves s)) as [Hres | Hres].
    - rewrite bool_decide_eq_true_2 by done.
      rewrite (counts_eq _ count digit) by (simpl; done || lia). simpl.
      destruct (decide (count ≤ occurrences digit (hands s)));
        by rewrite advance_player_eq.
    - rewrite bool_decide_eq_false_2 by done. simpl.
      by rewrite advance_player_eq. }
  split; [done|]. split; [done|]. split; [done|].
  split.
  { destruct (decide (resolves s)), (decide (count ≤ occurrences digit (hands s)));
      simpl; apply entry_insert_eq; done || lia. }
  split.
  { intros i j Hi Hj Hne.
    destruct (decide (resolves s)), (decide (count ≤ occurrences digit (hands s)));
      simpl; apply entry_insert_ne; done || lia. }
  split.
  { by destruct (decide (resolves s)),
         (decide (count ≤ occurrences digit (hands s))). }
  split.
  { intros Hres. rewrite decide_True by done.
    destruct (decide (count ≤ occurrences digit (hands s))); simpl;
      (split; [done|]); split; intros; done || lia. }
  split.
  { intros Hres. rewrite decide_False by done. done. }
  by destruct (decide (resolves s)),
       (decide (count ≤ occurrences digit (hands s))).
Qed.

(** Player 1 challenges player 0's bid 0 in the four-bid game (a rebid is
    flagged, so one challenge of two players triggers): the game is over
    and player 0, the originator, has won. *)
Lemma challenge_transition_witness :
  ∃ s',
    _apply_action (after_first_bid (Some false)) Action.CHALLENGE = Ok s'
    ∧ _num_challenges s' = 1
    ∧ _game_over s' = true
    ∧ _winner s' = 0.
Proof.
  destruct (challenge_transition (after_first_bid (Some false)) 1)
    as (s' & count & digit & Happly & Hdecode & _ & _ & _ & _ & Hnum & Hres & _).
  - by_decide.
  - by_decide.
  - reflexivity.
  - simpl. lia.
  - exists s'. split; [exact Happly|]. split; [exact Hnum|].
    vm_compute in Hdecode. injection Hdecode as <- <-.
    destruct Hres as (Hover & Hwin & _).
    { right. split; reflexivity. }
    split; [exact Hover|]. apply Hwin. vm_compute. discriminate.
Defined.

(** C3, on the code: the transition reads two attributes the file assigns
    nowhere.  Without [_is_terminal] the first test of [_apply_action]
    raises; with it, in the bidding phase, the first statement of the
    challenge branch (and of the bid branch) reads [self.actions] and
    raises.  So in the states the file itself sets up no challenge is ever
    recorded: every action ends in an [AttributeError] and changes
    nothing. *)
Theorem challenge_raises_attribute_error (s : LiarsPokerState.t) :
  _is_terminal s = None ∨ (actions s = None ∧ is_chance_node s = Ok false) →
  _apply_action s Action.CHALLENGE = Raise AttributeError
  ∧ ∀ a, _apply_action s a = Raise AttributeError.
Proof.
  intros Habsent.
  assert (Hall : ∀ a, _apply_action s a = Raise AttributeError); [|by split].
  intros a. unfold _apply_action.
  destruct Habsent as [Hterm | [Hlog Hphase]].
  - unfold is_chance_node, current_player. by rewrite Hterm.
  - rewrite Hphase. simpl. unfold log_action. rewrite Hlog.
    by destruct (decide (a = Action.CHALLENGE)).
Qed.

(** The state the constructor returns has neither attribute.  In the
    four-bid game, with both hands dealt and player 0's bid 0 standing,
    player 1's challenge raises, and it still raises once [_is_terminal] has
    been given the value false. *)
Lemma challenge_raises_attribute_error_witness :
  new_initial_state bare_base small_game
  = Ok (set_actions None (fresh None small_game 4))
  ∧ _apply_action (set_actions None (after_first_bid None)) Action.CHALLENGE
    = Raise AttributeError
  ∧ _apply_action (set_actions None (after_first_bid (Some false)))
      Action.CHALLENGE
    = Raise AttributeError.
Proof.
  split; [reflexivity|]. split.
  - apply (challenge_raises_attribute_error
             (set_actions None (after_first_bid None))).
    left. reflexivity.
  - apply (challenge_raises_attribute_error
             (set_actions None (after_first_bid (Some false)))).
    right. split; reflexivity.
Defined.

(** ** Invariants of the state machine *)

Lemma has_shape_zeros (rows cols : Z) :
  has_shape (replicate (Z.to_nat rows) (replicate (Z.to_nat cols) 0)) rows cols.
Proof.
  split; [apply length_replicate|].
  apply Forall_replicate, length_replicate.
Qed.

Lemma np_setitem2_row_bound (m m' : list (list Z)) (i j v : Z) :
  np_setitem2 m i j v = Ok m' → i < Z.of_nat (length m).
Proof.
  unfold np_setitem2, py_getitem.
  destruct (norm_index (length m) i) as [k|] eqn:Hk; simpl; [|done].
  intros _. apply norm_index_ok in Hk. lia.
Qed.

(** The state constructor returns whenever numpy allocates the two
    histories of a game whose sizes are not negative. *)
Lemma initial_state_allocated (base : Inherited) (game : LiarsPoker.t) :
  0 ≤ LiarsPoker.hand_length game * LiarsPoker.num_digits game
      * LiarsPoker.num_players game →
  0 ≤ LiarsPoker.num_players game →
  (∀ k, np_refuses base k
          (LiarsPoker.hand_length game * LiarsPoker.num_digits game
           * LiarsPoker.num_players game)
          (LiarsPoker.num_players game) = None) →
  ∃ s, new_initial_state base game = Ok s.
Proof.
  intros Hrows Hcols Halloc.
  unfold new_initial_state, __init__, np_zeros2.
  rewrite !Halloc. destruct (decide _) as [|_]; [lia|]. simpl. eauto.
Qed.

(** The state the constructor returns for a game with at least one player,
    a positive hand length and a deck of [num_digits] symbols is well formed
    and has no outcome. *)
Lemma initial_state_well_formed (base : Inherited) (game : LiarsPoker.t)
    (s : LiarsPokerState.t) :
  0 < LiarsPoker.num_players game → 0 < LiarsPoker.hand_length game →
  0 ≤ LiarsPoker.num_digits game →
  length (LiarsPoker.deck game) = Z.to_nat (LiarsPoker.num_digits game) →
  new_initial_state base game = Ok s →
  well_formed s ∧ outcome_consistent s
  ∧ hands s = replicate (Z.to_nat (LiarsPoker.num_players game)) []
  ∧ _current_player s = 0 ∧ _current_bid s = -1 ∧ _game_over s = false.
Proof.
  intros Hn Hhl Hnd Hdeck.
  unfold new_initial_state, __init__, np_zeros2.
  destruct (decide _) as [|_]; [done|].
  destruct (np_refuses base 0 _ _); [done|].
  destruct (np_refuses base 1 _ _); [done|]. simpl.
  intros [= <-]. simpl.
  split; [|by repeat split; auto].
  unfold well_formed, total_bids. simpl.
  split_and!; try done; try lia; try nia;
    try apply length_replicate; try apply has_shape_zeros.
Qed.

Lemma advance_player_well_formed (s s' : LiarsPokerState.t) :
  well_formed s → advance_player s = Ok s' → well_formed s'.
Proof.
  intros Hwf. pose proof Hwf as (Hn & _).
  rewrite advance_player_eq by done. intros [= <-].
  unfold well_formed, total_bids in *. simpl.
  pose proof (Z.mod_pos_bound (_current_player s + 1) (_num_players s) Hn).
  destruct Hwf as (? & ? & ? & ? & ? & ? & ? & ? & ? & ?).
  split_and!; done || lia.
Qed.

Lemma log_action_fields (s s' : LiarsPokerState.t) (a : Z) :
  log_action a s = Ok s' →
  ∃ log, s' = set_actions log s.
Proof.
  unfold log_action. destruct (actions s) as [log|]; [|done].
  destruct (py_append_at log (_current_player s) a); simpl; [|done].
  intros [= <-]. eauto.
Qed.

Lemma counts_fields (s s' : LiarsPokerState.t) :
  _counts s = Ok s' →
  s' = set_winner (_bid_originator s) s ∨ s' = set_loser (_bid_originator s) s.
Proof.
  unfold _counts. destruct (_decode_bid s (_current_bid s)) as [[c d]|]; simpl; [|done].
  destruct (count_over_players _ _ _ _) as [m|]; simpl; [|done].
  destruct (decide (c ≤ m)); intros [= <-]; auto.
Qed.

(** Every transition keeps a well-formed state well formed.  Actions are
    never negative: bids and [CHALLENGE] are identifiers from 0, chance
    outcomes are digits. *)
Lemma apply_action_well_formed (s s' : LiarsPokerState.t) (a : Z) :
  well_formed s → 0 ≤ a → _apply_action s a = Ok s' → well_formed s'.
Proof.
  intros Hwf Ha. unfold _apply_action.
  destruct (is_chance_node s) as [[|]|]; simpl; [| |done].
  - destruct (py_append_at (hands s) (_current_player s) a) as [hs|] eqn:Hhs;
      simpl; [|done].
    intros [= <-]. apply py_append_at_length in Hhs.
    unfold well_formed, total_bids in *. simpl. by rewrite Hhs.
  - destruct (decide (a = Action.CHALLENGE)) as [->|Hbid].
    + destruct (log_action Action.CHALLENGE s) as [s1|] eqn:Hlog; simpl; [|done].
      apply log_action_fields in Hlog as [log ->].
      destruct (py_assert _); simpl; [|done].
      unfold _update_challenge_history. simpl.
      destruct (np_setitem2 _ _ _ _) as [ch|] eqn:Hch; simpl; [|done].
      assert (Hwf1 : well_formed
                (set_num_challenges (_num_challenges s + 1)
                   (set_challenge_history ch (set_actions log s)))).
      { destruct Hwf as (? & ? & ? & ? & ? & ? & ? & ? & [??] & Hshape).
        destruct (np_setitem2_shape _ _ _ _ _ _ _ Hshape Hch).
        unfold well_formed, has_shape, total_bids in *. simpl.
        split_and!; done || lia. }
      destruct (_ || _); simpl.
      * destruct (_counts _) as [s2|] eqn:Hcounts; simpl; [|done].
        apply advance_player_well_formed.
        apply counts_fields in Hcounts as [-> | ->]; exact Hwf1.
      * by apply advance_player_well_formed.
    + destruct (log_action a s) as [s1|] eqn:Hlog; simpl; [|done].
      apply log_action_fields in Hlog as [log ->].
      unfold _update_bid_history.
      destruct Hwf as (? & ? & ? & ? & ? & ? & ? & ? & Hshape & [??]).
      destruct (decide (_ = _)); simpl;
        (destruct (np_setitem2 _ _ _ _) as [bh|] eqn:Hbh; simpl; [|done]);
        apply advance_player_well_formed;
        pose proof (np_setitem2_row_bound _ _ _ _ _ Hbh) as Hrow;
        destruct (np_setitem2_shape _ _ _ _ _ _ _ Hshape Hbh);
        destruct Hshape as [Hlen Hrows];
        unfold well_formed, has_shape, total_bids in *; simpl in *;
        rewrite Hlen in Hrow; (split_and!; done || lia).
Qed.

(** A transition from a state that is not over keeps the outcome
    consistent: [winner] and [loser] are set only together with [gameOver],
    and only one of them. *)
Lemma apply_action_outcome_consistent (s s' : LiarsPokerState.t) (a : Z) :
  well_formed s → outcome_consistent s → _game_over s = false →
  _apply_action s a = Ok s' → outcome_consistent s'.
Proof.
  intros Hwf [Hopen Hone] Hover. destruct (Hopen Hover) as [Hw Hl].
  pose proof Hwf as (_ & _ & _ & _ & _ & _ & Horig & _).
  unfold _apply_action.
  destruct (is_chance_node s) as [[|]|]; simpl; [| |done].
  - destruct (py_append_at (hands s) (_current_player s) a) as [hs|];
      simpl; [|done].
    intros [= <-]. by split.
  - destruct (decide (a = Action.CHALLENGE)) as [->|Hbid].
    + destruct (log_action Action.CHALLENGE s) as [s1|] eqn:Hlog; simpl; [|done].
      apply log_action_fields in Hlog as [log ->].
      destruct (py_assert _); simpl; [|done].
      unfold _update_challenge_history. simpl.
      destruct (np_setitem2 _ _ _ _) as [ch|]; simpl; [|done].
      destruct (_ || _); simpl.
      * destruct (_counts _) as [s2|] eqn:Hcounts; simpl; [|done].
        unfold advance_player. simpl.
        apply counts_fields in Hcounts as [-> | ->]; simpl;
          (destruct (decide (_num_players s = 0)); [done|]);
          intros [= <-]; unfold outcome_consistent; simpl; split; auto; done.
      * unfold advance_player. simpl.
        destruct (decide (_num_players s = 0)); [done|].
        intros [= <-]. by split.
    + destruct (log_action a s) as [s1|] eqn:Hlog; simpl; [|done].
      apply log_action_fields in Hlog as [log ->].
      unfold _update_bid_history, advance_player.
      destruct (decide (_ = _)); simpl;
        (destruct (np_setitem2 _ _ _ _) as [bh|]; simpl; [|done]);
        (destruct (decide (_num_players s = 0)); [done|]);
        intros [= <-]; by split.
Qed.

(** X10: both invariants hold in every state the loop reaches from a state
    that has them, the constructor's among others. *)
Lemma reachable_invariants (start s : LiarsPokerState.t) :
  well_formed start → outcome_consistent start →
  reachable_from start s →
  well_formed s ∧ outcome_consistent s.
Proof.
  intros Hwf Hout Hreach.
  induction Hreach as [|s s' a Hreach [IHwf IHout] Hover Ha Hstep]; [done|].
  split.
  - by eapply apply_action_well_formed.
  - by eapply apply_action_outcome_consistent.
Qed.

(** ** Returns *)

Lemma total_reward_range (bidder others originator : Z) (m : nat) (k : Z) :
  total_reward
    ((fun player_id =>
        if decide (player_id ≠ originator) then others else bidder)
     <$> seqZ k (Z.of_nat m))
  = if decide (k ≤ originator < k + Z.of_nat m)
    then bidder + (Z.of_nat m - 1) * others
    else Z.of_nat m * others.
Proof.
  revert k. induction m as [|m IH]; intros k.
  - rewrite seqZ_nil by lia. simpl. rewrite decide_False by lia. done.
  - rewrite seqZ_cons by lia. simpl.
    replace (Z.pred (Z.of_nat (S m))) with (Z.of_nat m) by lia.
    unfold total_reward in IH. rewrite IH.
    repeat case_decide; lia.
Qed.

Lemma returns_eq (s : LiarsPokerState.t) (bidder others : Z) :
  (if decide (_winner s ≠ -1) then (_num_players s - 1, -1)
   else if decide (_loser s ≠ -1) then (-1 * (_num_players s - 1), 1)
   else (0, 0)) = (bidder, others) →
  returns s
  = (fun player_id =>
       if decide (player_id ≠ _bid_originator s) then others else bidder)
    <$> py_range 0 (_num_players s).
Proof. intros Hrewards. unfold returns. by rewrite Hrewards. Qed.

Lemma returns_lookup (s : LiarsPokerState.t) (bidder others i : Z) :
  returns s
  = (fun player_id =>
       if decide (player_id ≠ _bid_originator s) then others else bidder)
    <$> py_range 0 (_num_players s) →
  0 ≤ i < _num_players s →
  returns s !! Z.to_nat i
  = Some (if decide (i = _bid_originator s) then bidder else others).
Proof.
  intros -> Hi. unfold py_range.
  rewrite list_lookup_fmap, lookup_seqZ_lt by lia. simpl.
  rewrite Z2Nat.id by lia. f_equal. repeat case_decide; done || lia.
Qed.

Lemma returns_total (s : LiarsPokerState.t) (bidder others : Z) :
  0 ≤ _bid_originator s < _num_players s →
  returns s
  = (fun player_id =>
       if decide (player_id ≠ _bid_originator s) then others else bidder)
    <$> py_range 0 (_num_players s) →
  total_reward (returns s) = bidder + (_num_players s - 1) * others.
Proof.
  intros Horig ->. unfold py_range.
  replace (_num_players s - 0) with (Z.of_nat (Z.to_nat (_num_players s))) by lia.
  rewrite total_reward_range. rewrite decide_True by lia. lia.
Qed.

Lemma zero_rewards (originator : Z) (m : nat) (k : Z) :
  (fun player_id => if decide (player_id ≠ originator) then 0 else 0)
  <$> seqZ k (Z.of_nat m)
  = replicate m 0.
Proof.
  revert k. induction m as [|m IH]; intros k.
  - by rewrite seqZ_nil.
  - rewrite seqZ_cons by lia. simpl.
    replace (Z.pred (Z.of_nat (S m))) with (Z.of_nat m) by lia.
    rewrite IH. by case_decide.
Qed.

(** C9: [returns] has one entry per player.  In a terminal state with
    [winner] set the originator's entry is [numPlayers - 1] and every other
    entry is -1; with [loser] set the originator's entry is
    [-(numPlayers - 1)] and every other entry is 1; in a terminal state the
    entries sum to 0; in a state that is not terminal every entry is 0. *)
Theorem returns_zero_sum (s : LiarsPokerState.t) :
  well_formed s → outcome_consistent s →
  length (returns s) = Z.to_nat (_num_players s)
  ∧ (is_terminal s = true → _winner s ≠ -1 →
     ∀ i, 0 ≤ i < _num_players s →
       returns s !! Z.to_nat i
       = Some (if decide (i = _bid_originator s) then _num_players s - 1 else -1))
  ∧ (is_terminal s = true → _loser s ≠ -1 →
     ∀ i, 0 ≤ i < _num_players s →
       returns s !! Z.to_nat i
       = Some (if decide (i = _bid_originator s)
               then - (_num_players s - 1) else 1))
  ∧ (is_terminal s = true → total_reward (returns s) = 0)
  ∧ (is_terminal s = false →
     returns s = replicate (Z.to_nat (_num_players s)) 0).
Proof.
  intros (Hn & _ & _ & _ & _ & _ & Horig & _) [Hopen Hone].
  unfold is_terminal.
  split; [|split; [|split; [|split]]].
  - unfold returns, py_range.
    destruct (if decide (_winner s ≠ -1) then _ else _) as [bidder others].
    rewrite length_fmap, length_seqZ. f_equal. lia.
  - intros _ Hwinner i Hi.
    apply returns_lookup; [|done]. apply returns_eq.
    by rewrite decide_True.
  - intros _ Hloser i Hi.
    assert (Hwinner : _winner s = -1) by (by destruct Hone).
    replace (- (_num_players s - 1)) with (-1 * (_num_players s - 1)) by lia.
    apply returns_lookup; [|done]. apply returns_eq.
    rewrite decide_False, decide_True; done || lia.
  - intros _.
    destruct (decide (_winner s ≠ -1)) as [Hw | Hw];
      [|destruct (decide (_loser s ≠ -1)) as [Hl | Hl]].
    + rewrite (returns_total s (_num_players s - 1) (-1)); [lia | done |].
      apply returns_eq. by rewrite decide_True.
    + rewrite (returns_total s (-1 * (_num_players s - 1)) 1); [lia | done |].
      apply returns_eq. by rewrite decide_False, decide_True.
    + rewrite (returns_total s 0 0); [lia | done |].
      apply returns_eq. by rewrite !decide_False.
  - intros Hover. destruct (Hopen Hover) as [Hw Hl].
    rewrite (returns_eq s 0 0) by (rewrite !decide_False; done || lia).
    unfold py_range.
    replace (_num_players s - 0) with (Z.of_nat (Z.to_nat (_num_players s))) by lia.
    apply zero_rewards.
Qed.

(** The resolved four-bid game, won by player 0: the returns are
    [[1; -1]] and sum to 0. *)
Lemma returns_zero_sum_witness :
  returns (resolved (Some false)) !! 0%nat = Some 1
  ∧ returns (resolved (Some false)) !! 1%nat = Some (-1)
  ∧ total_reward (returns (resolved (Some false))) = 0.
Proof.
  destruct (returns_zero_sum (resolved (Some false)))
    as (_ & Hwinner & _ & Hsum & _).
  - by_decide.
  - by_decide.
  - split; [|split].
    + apply (Hwinner eq_refl) with (i := 0); [simpl; lia | simpl; lia].
    + apply (Hwinner eq_refl) with (i := 1); [simpl; lia | simpl; lia].
    + exact (Hsum eq_refl).
Defined.

(** ** Construction *)

Lemma comprehension_getitem_take {A} (l : list A) (m k : nat) :
  (k + m ≤ length l)%nat →
  py_comprehension (py_getitem l) (seqZ (Z.of_nat k) (Z.of_nat m))
  = Ok (take m (drop k l)).
Proof.
  revert k. induction m as [|m IH]; intros k Hlen.
  - by rewrite seqZ_nil.
  - rewrite seqZ_cons by lia. simpl.
    destruct (lookup_lt_is_Some_2 l k) as [x Hx]; [lia|].
    rewrite (py_getitem_in_range l (Z.of_nat k) x)
      by (lia || by rewrite Nat2Z.id).
    simpl. replace (Z.succ (Z.of_nat k)) with (Z.of_nat (S k)) by lia.
    replace (Z.pred (Z.of_nat (S m))) with (Z.of_nat m) by lia.
    rewrite IH by lia. simpl.
    by rewrite (drop_S l x k Hx).
Qed.

Lemma comprehension_getitem_overrun {A} (l : list A) (m k : nat) :
  (k ≤ length l < k + m)%nat →
  py_comprehension (py_getitem l) (seqZ (Z.of_nat k) (Z.of_nat m))
  = Raise IndexError.
Proof.
  revert k. induction m as [|m IH]; intros k Hlen; [lia|].
  rewrite seqZ_cons by lia. simpl.
  replace (Z.succ (Z.of_nat k)) with (Z.of_nat (S k)) by lia.
  replace (Z.pred (Z.of_nat (S m))) with (Z.of_nat m) by lia.
  destruct (decide (k < length l)%nat) as [Hin | Hout].
  - destruct (lookup_lt_is_Some_2 l k Hin) as [x Hx].
    rewrite (py_getitem_in_range l (Z.of_nat k) x)
      by (lia || by rewrite Nat2Z.id).
    simpl. by rewrite IH by lia.
  - unfold py_getitem, norm_index.
    rewrite !decide_False by lia. done.
Qed.

(** The deck the constructor builds. *)
Lemma deck_of_digits (n : Z) :
  py_comprehension (py_getitem _FULL_DECK) (py_range 0 n)
  = if decide (n ≤ 10) then Ok (take (Z.to_nat n) _FULL_DECK)
    else Raise IndexError.
Proof.
  unfold py_range.
  destruct (decide (n ≤ 0)) as [Hneg | Hpos].
  - rewrite seqZ_nil by lia. rewrite decide_True by lia.
    by replace (Z.to_nat n) with 0%nat by lia.
  - replace (n - 0) with (Z.of_nat (Z.to_nat n)) by lia.
    change 0 with (Z.of_nat 0) at 1.
    destruct (decide (n ≤ 10)).
    + rewrite comprehension_getitem_take; [done|]. simpl. lia.
    + apply comprehension_getitem_overrun. simpl. lia.
Qed.

(** C7, on the code: the constructor reads its parameters with
    [params.get(name, default=...)], and the [get] of Python's [dict] takes
    no keyword argument.  For every dictionary, whatever configuration it
    holds, construction does not return: the call ends in a [TypeError] as
    soon as the inherited constructor has returned, and nothing is recorded.
    With the declared default [params=None] it ends in an
    [AttributeError]. *)
Theorem constructor_refuses_every_dict (inherited : Result unit)
    (m : gmap string Z) :
  (∀ game, LiarsPoker.__init__ inherited (Some (builtin_dict m)) ≠ Ok game)
  ∧ (∀ game, LiarsPoker.__init__ inherited None ≠ Ok game)
  ∧ LiarsPoker.__init__ (Ok tt) (Some (builtin_dict m)) = Raise TypeError
  ∧ LiarsPoker.__init__ (Ok tt) None = Raise AttributeError
  ∧ (∀ e params, LiarsPoker.__init__ (Raise e) params = Raise e).
Proof.
  unfold LiarsPoker.__init__.
  split_and!; try done; intros game; by destruct inherited.
Qed.

(** X23: when the inherited constructor returns and the parameter object
    has a [get] that takes the keyword [default] (a mapping of the caller's
    own, not Python's [dict]), the constructor checks no range.  Whatever
    player count and hand length the lookups give, and for every digit count
    of at most 10, construction succeeds and records exactly those three
    values, with the first [numDigits] symbols of the full deck as the deck;
    for a digit count above 10 the deck cannot be built and the construction
    ends in an index error. *)
Theorem constructor_records_parameters (p : Params) (players hand digits : Z) :
  get p "num_digits" _NUM_DIGITS = Ok digits →
  get p "num_players" _MIN_NUM_PLAYERS = Ok players →
  get p "hand_length" _HAND_LENGTH = Ok hand →
  (digits ≤ 10 →
   LiarsPoker.__init__ (Ok tt) (Some p)
   = Ok {| LiarsPoker.deck := take (Z.to_nat digits) _FULL_DECK;
           LiarsPoker.num_players := players;
           LiarsPoker.hand_length := hand;
           LiarsPoker.num_digits := digits |})
  ∧ (10 < digits → LiarsPoker.__init__ (Ok tt) (Some p) = Raise IndexError).
Proof.
  intros Hdigits Hplayers Hlength. unfold LiarsPoker.__init__. simpl.
  rewrite Hdigits. simpl. rewrite deck_of_digits. split; intros Hbound.
  - rewrite decide_True by done. simpl.
    rewrite Hplayers. simpl. by rewrite Hlength.
  - by rewrite decide_False by lia.
Qed.

(** Eleven players and an empty hand are recorded as they are. *)
Lemma constructor_records_parameters_witness :
  LiarsPoker.__init__ (Ok tt)
    (Some (keyword_mapping
             (<["num_players" := 11]> (<["hand_length" := 0]> ∅))))
  = Ok {| LiarsPoker.deck := [1; 2; 3]; LiarsPoker.num_players := 11;
          LiarsPoker.hand_length := 0; LiarsPoker.num_digits := 3 |}.
Proof.
  apply (constructor_records_parameters
           (keyword_mapping (<["num_players" := 11]> (<["hand_length" := 0]> ∅)))
           11 0 3); try reflexivity.
  vm_compute. discriminate.
Defined.

(** ** Dealing *)

Lemma fresh_is_initial (v : option bool) :
  new_initial_state (base_with v) small_game = Ok (fresh v small_game 4).
Proof. reflexivity. Qed.

Lemma deal_goes_to_player_0 (hand : list Z) (digit : Z) :
  _apply_action (set_hands [hand; []] (fresh (Some false) small_game 4)) digit
  = Ok (set_hands [hand ++ [digit]; []] (fresh (Some false) small_game 4)).
Proof. reflexivity. Qed.

Lemma deals_go_to_player_0 (digits hand : list Z) :
  apply_actions (set_hands [hand; []] (fresh (Some false) small_game 4)) digits
  = Ok (set_hands [hand ++ digits; []] (fresh (Some false) small_game 4)).
Proof.
  revert hand. induction digits as [|digit digits IH]; intros hand.
  - simpl. by rewrite app_nil_r.
  - cbn [apply_actions]. rewrite deal_goes_to_player_0. simpl.
    rewrite IH. by rewrite <- app_assoc.
Qed.

(** C1, on the code: in the game of two players with one digit a hand,
    the constructor's state takes every chance outcome into player 0's
    hand, player 1's hand stays empty, and after any number of chance
    actions (two would complete the deal) the current player is still the
    chance player.  The chance branch of [_apply_action] returns before the
    player is advanced. *)
Theorem dealing_never_leaves_player_0 (digits : list Z) :
  new_initial_state (base_with (Some false)) small_game
  = Ok (fresh (Some false) small_game 4)
  ∧ apply_actions (fresh (Some false) small_game 4) digits
    = Ok (set_hands [digits; []] (fresh (Some false) small_game 4))
  ∧ current_player (set_hands [digits; []] (fresh (Some false) small_game 4))
    = Ok CHANCE.
Proof.
  split; [reflexivity|]. split; [|reflexivity].
  exact (deals_go_to_player_0 digits []).
Qed.

(** ** Bids and the value of [CHALLENGE] *)

Lemma first_bid_applied :
  _apply_action (dealt (Some false) small_game 4) 0
  = Ok (after_first_bid (Some false)).
Proof. vm_compute. reflexivity. Qed.

(** C2, on the code: after player 0's bid 0 the bid 1 ("two 1s") is among
    player 1's legal bids, and applying it does not make it the current
    bid: 1 is the value of [Action.CHALLENGE], so the challenge branch runs,
    records a challenge on bid 0 and, here, resolves the game. *)
Theorem bid_one_is_taken_as_challenge :
  _apply_action (dealt (Some false) small_game 4) 0
  = Ok (after_first_bid (Some false))
  ∧ _legal_actions (after_first_bid (Some false)) 1 = Ok [1; 2; 3; 1]
  ∧ _apply_action (after_first_bid (Some false)) 1 = Ok (resolved (Some false))
  ∧ _current_bid (resolved (Some false)) = 0
  ∧ _bid_originator (resolved (Some false)) = 0
  ∧ entry (bid_history (resolved (Some false))) 1 1 = Some 0
  ∧ entry (challenge_history (resolved (Some false))) 0 1 = Some 1
  ∧ _num_challenges (resolved (Some false)) = 1
  ∧ _game_over (resolved (Some false)) = true.
Proof. split_and!; vm_compute; reflexivity. Qed.

(** X11: the bid branch does what the specification says of a bid, for every
    action other than 1 inside the bid space, whether or not it is above the
    standing bid. *)
Lemma bid_transition (s : LiarsPokerState.t) (p b : Z) :
  well_formed s → log_ready s →
  current_player s = Ok (Player p) →
  b ≠ Action.CHALLENGE → 0 ≤ b < total_bids s →
  ∃ s',
    _apply_action s b = Ok s'
    ∧ _current_bid s' = b
    ∧ entry (bid_history s') b p = Some 1
    ∧ is_rebid s' = bool_decide (p = _bid_originator s)
    ∧ _bid_originator s' = p
    ∧ _num_challenges s' = 0
    ∧ _current_player s' = (p + 1) `mod` _num_players s.
Proof.
  intros Hwf Hlog Hplayer Hne Hb.
  destruct Hwf as (Hn & Hhl & Hnd & Hdeck & Hhands & Hcp & Horig & Hcb
                   & [Hbh_len Hbh_rows] & Hch).
  apply current_player_player in Hplayer as (Hterm & -> & Hchance).
  specialize (Hchance ltac:(lia)).
  unfold log_ready in Hlog.
  destruct (actions s) as [log|] eqn:Hactions; [|done].
  destruct (lookup_lt_is_Some_2 log (Z.to_nat (_current_player s)))
    as [mine Hmine]; [lia|].
  destruct (lookup_lt_is_Some_2 (bid_history s) (Z.to_nat b))
    as [row Hrow]; [lia|].
  assert (Hrow_len : length row = Z.to_nat (_num_players s))
    by exact (Forall_lookup_1 _ _ _ _ Hbh_rows Hrow).
  unfold _apply_action. rewrite Hchance. simpl.
  rewrite decide_False by done.
  unfold log_action. rewrite Hactions.
  rewrite (py_append_at_in_range log _ mine) by (done || lia). simpl.
  unfold _update_bid_history.
  destruct (decide (_current_player s = _bid_originator s)) as [Hsame | Hother];
    simpl;
    rewrite (np_setitem2_in_range _ _ _ _ row) by (done || lia); simpl;
    rewrite advance_player_eq by done;
    (eexists; split; [reflexivity|]); simpl;
    (split; [done|]); (split; [apply entry_insert_eq; done || lia|]);
    (split; [symmetry; (by apply bool_decide_eq_true_2)
                       || (by apply bool_decide_eq_false_2)|]);
    done.
Qed.

(** ** The count of a block's first bid *)

(** C4, on the code: the first identifier of a digit's block decodes to
    the count 0.  In the four-bid game with both hands [[1]], bid 2 is the
    first bid of the block of digit 2; no hand holds a 2, and the challenge
    that follows resolves with the originator as winner.  In the game of the
    docstring of [_decode_bid] the identifiers 1 and 10, described there as
    two 1s and three 3s, decode to the counts 1 and 2.  (In the game with the
    one-digit deck and both hands [[1]], bid 0 followed by a challenge
    resolves with the bidder as winner: two occurrences against the decoded
    count 0.) *)
Theorem block_start_bid_counts_zero :
  _decode_bid (dealt (Some false) small_game 4) 2 = Ok (0, 2)
  ∧ occurrences 2 (hands (dealt (Some false) small_game 4)) = 0
  ∧ (∃ s',
       apply_actions (dealt (Some false) small_game 4) [2; Action.CHALLENGE]
       = Ok s'
       ∧ _game_over s' = true ∧ _winner s' = 0 ∧ _loser s' = -1)
  ∧ _decode_bid (fresh (Some false) docstring_game 12) 1 = Ok (1, 1)
  ∧ _decode_bid (fresh (Some false) docstring_game 12) 10 = Ok (2, 3)
  ∧ _decode_bid (dealt (Some false) one_digit_game 2) 0 = Ok (0, 1)
  ∧ (∃ s',
       apply_actions (dealt (Some false) one_digit_game 2) [0; Action.CHALLENGE]
       = Ok s'
       ∧ _game_over s' = true ∧ _winner s' = 0 ∧ _loser s' = -1).
Proof.
  split_and!; try (vm_compute; reflexivity);
    (eexists; split_and!; vm_compute; reflexivity).
Qed.

(** ** The current actor *)

(** C5, on the code: [current_player] tests [self._is_terminal], which no
    method assigns, and never [_game_over].  Whatever that attribute reads,
    the function errs on the fresh state, which is a chance node, or on the
    resolved state, which is terminal: if the attribute is missing the call
    raises, if it reads true the fresh state is reported terminal, if it
    reads false the resolved state is reported as player 0's turn. *)
Theorem current_player_ignores_game_over (v : option bool) :
  is_terminal (fresh v small_game 4) = false
  ∧ is_terminal (resolved v) = true
  ∧ (current_player (fresh v small_game 4) ≠ Ok CHANCE
     ∨ current_player (resolved v) ≠ Ok TERMINAL)
  ∧ current_player (fresh None small_game 4) = Raise AttributeError
  ∧ current_player (fresh (Some true) small_game 4) = Ok TERMINAL
  ∧ current_player (resolved (Some false)) = Ok (Player 0).
Proof.
  split_and!; try (vm_compute; reflexivity).
  destruct v as [[|]|]; [left | right | left]; discriminate.
Qed.

(** ** The observer *)

Lemma write_item_tensor_length (name : string) (i v : Z)
    (o o' : LiarsPokerObserver.t) :
  LiarsPokerObserver.write_item name i v o = Ok o' →
  length (LiarsPokerObserver.tensor o') = length (LiarsPokerObserver.tensor o).
Proof.
  unfold LiarsPokerObserver.write_item.
  destruct (LiarsPokerObserver.dict o !! name) as [[index size shape|h|b|m]|];
    try done.
  - destruct shape as [|d [|d' shape]]; try done.
    destruct (norm_index size i); simpl; [|done].
    intros [= <-]. simpl. apply length_insert.
  - destruct (py_setitem h i v); simpl; [|done]. by intros [= <-].
Qed.

Lemma set_private_hand_same (state : LiarsPokerState.t) (player : Z)
    (o o' : LiarsPokerObserver.t) :
  LiarsPokerObserver.set_private_hand state player o = Ok o' → o' = o.
Proof.
  unfold LiarsPokerObserver.set_private_hand.
  destruct (decide (is_Some _)); [|by intros [= <-]].
  destruct (py_getitem _ _); simpl; [|done].
  destruct (decide (_ = _)); [done|]. by intros [= <-].
Qed.

Lemma rebind_tensor (name : string) (value : LiarsPokerObserver.Entry)
    (o : LiarsPokerObserver.t) :
  LiarsPokerObserver.tensor (LiarsPokerObserver.rebind name value o)
  = LiarsPokerObserver.tensor o.
Proof. unfold LiarsPokerObserver.rebind. by destruct (decide (is_Some _)). Qed.

(** The flat tensor keeps its size over [set_from]. *)
Lemma set_from_tensor_length (o : LiarsPokerObserver.t)
    (state : LiarsPokerState.t) (player : Z) :
  length (LiarsPokerObserver.tensor (LiarsPokerObserver.set_from o state player).1)
  = length (LiarsPokerObserver.tensor o).
Proof.
  unfold LiarsPokerObserver.set_from.
  set (o0 := LiarsPokerObserver.set_tensor _ o).
  assert (H0 : length (LiarsPokerObserver.tensor o0)
               = length (LiarsPokerObserver.tensor o))
    by apply length_replicate.
  assert (H1 : ∀ o1,
             (if decide (is_Some (LiarsPokerObserver.dict o0 !! "player"%string))
              then LiarsPokerObserver.write_item "player" player 1 o0
              else Ok o0) = Ok o1 →
             length (LiarsPokerObserver.tensor o1)
             = length (LiarsPokerObserver.tensor o)).
  { intros o1. destruct (decide (is_Some _)).
    - intros Hw. by rewrite (write_item_tensor_length _ _ _ _ _ Hw).
    - by intros [= <-]. }
  destruct (if decide (is_Some _) then _ else _) as [o1|e]; [|done].
  specialize (H1 o1 eq_refl).
  destruct (LiarsPokerObserver.set_private_hand state player o1) as [o2|e] eqn:Hp;
    [|done].
  apply set_private_hand_same in Hp as ->. simpl.
  by rewrite !rebind_tensor.
Qed.

(** C8, on the code: for the observer of a single player's private hand
    in the four-bid game, [set_from] on a state in which player 0's hand
    [[1]] is complete ends in an [AttributeError] (the statement reads
    [self.hands], an attribute the observer does not have), and the
    private-hand block of the tensor is still [[0]]; on the fresh state,
    with the hand incomplete, the call returns and the block is [[0]]. *)
Theorem set_from_fails_on_full_hand :
  ∃ o,
    LiarsPokerObserver.__init__ single_player_view 2 1 2 = Ok o
    ∧ hands (dealt (Some false) small_game 4) !! 0%nat = Some [1]
    ∧ (LiarsPokerObserver.set_from o (dealt (Some false) small_game 4) 0).2
      = Some AttributeError
    ∧ LiarsPokerObserver.block
        (LiarsPokerObserver.set_from o (dealt (Some false) small_game 4) 0).1
        "private_hand"
      = Some [0]
    ∧ (LiarsPokerObserver.set_from o (fresh (Some false) small_game 4) 0).2
      = None
    ∧ LiarsPokerObserver.block
        (LiarsPokerObserver.set_from o (fresh (Some false) small_game 4) 0).1
        "private_hand"
      = Some [0].
Proof.
  eexists. split; [vm_compute; reflexivity|].
  split_and!; vm_compute; reflexivity.
Qed.

(** * Further properties of the state machine *)

(** ** The three branches of a transition *)

Lemma np_setitem2_inv (m m' : list (list Z)) (i j v : Z) :
  np_setitem2 m i j v = Ok m' →
  ∃ (k k' : nat) (row : list Z),
    norm_index (length m) i = Ok k ∧ m !! k = Some row
    ∧ (k' < length row)%nat ∧ m' = <[k := <[k' := v]> row]> m.
Proof.
  unfold np_setitem2, py_getitem, py_setitem.
  destruct (norm_index (length m) i) as [k|] eqn:Hk; simpl; [|done].
  destruct (m !! k) as [row|] eqn:Hrow; simpl; [|done].
  destruct (norm_index (length row) j) as [k'|] eqn:Hk'; simpl; [|done].
  intros [= <-]. exists k, k', row.
  apply norm_index_ok in Hk' as [Hlt _]. done.
Qed.

(** A successful transition is a deal, a challenge or a bid, and each
    leaves the state in one of these forms. *)
Lemma apply_action_inv (s s' : LiarsPokerState.t) (a : Z) :
  _apply_action s a = Ok s' →
  (is_chance_node s = Ok true
   ∧ ∃ hs, py_append_at (hands s) (_current_player s) a = Ok hs
           ∧ s' = set_hands hs s)
  ∨ (is_chance_node s = Ok false ∧ a = Action.CHALLENGE
     ∧ _current_bid s ≠ -1 ∧ _num_players s ≠ 0
     ∧ ∃ log ch,
         np_setitem2 (challenge_history s) (_current_bid s)
           (_current_player s) 1 = Ok ch
         ∧ let s1 := set_num_challenges (_num_challenges s + 1)
                       (set_challenge_history ch (set_actions log s)) in
           let next := (_current_player s + 1) `mod` _num_players s in
           (¬ resolves s ∧ s' = set_current_player next s1)
           ∨ (resolves s
              ∧ (s' = set_current_player next
                        (set_game_over true (set_winner (_bid_originator s) s1))
                 ∨ s' = set_current_player next
                          (set_game_over true (set_loser (_bid_originator s) s1)))))
  ∨ (is_chance_node s = Ok false ∧ a ≠ Action.CHALLENGE
     ∧ _num_players s ≠ 0
     ∧ ∃ log bh,
         np_setitem2 (bid_history s) a (_current_player s) 1 = Ok bh
         ∧ s' = set_current_player
                  ((_current_player s + 1) `mod` _num_players s)
                  (set_num_challenges 0
                     (set_bid_history bh
                        (set_bid_originator (_current_player s)
                           (set_is_rebid
                              (bool_decide (_current_player s = _bid_originator s))
                              (set_current_bid a (set_actions log s))))))).
Proof.
  unfold _apply_action.
  destruct (is_chance_node s) as [[|]|]; simpl; [| |done].
  - destruct (py_append_at (hands s) (_current_player s) a) as [hs|] eqn:Hhs;
      simpl; [|done].
    intros [= <-]. left. eauto.
  - destruct (decide (a = Action.CHALLENGE)) as [->|Hbid].
    + destruct (log_action Action.CHALLENGE s) as [s1|] eqn:Hlog; simpl; [|done].
      apply log_action_fields in Hlog as [log ->].
      unfold _is_challenge_possible at 1. simpl.
      destruct (decide (_current_bid s ≠ -1)) as [Hcb | Hcb];
        [rewrite (bool_decide_eq_true_2 _ Hcb)
        |rewrite (bool_decide_eq_false_2 _ Hcb)]; simpl; [|done].
      unfold _update_challenge_history. simpl.
      destruct (np_setitem2 _ _ _ _) as [ch|] eqn:Hch; simpl; [|done].
      rewrite resolves_bool. intros Hstep. right. left.
      split; [done|]. split; [done|]. split; [done|].
      destruct (decide (resolves s)) as [Hres | Hres].
      * rewrite (bool_decide_eq_true_2 _ Hres) in Hstep.
        destruct (_counts _) as [s2|] eqn:Hcounts; simpl in Hstep; [|done].
        unfold advance_player in Hstep.
        apply counts_fields in Hcounts as [-> | ->]; simpl in Hstep;
          (destruct (decide (_num_players s = 0)); [done|]);
          injection Hstep as <-; (split; [done|]);
          exists log, ch; (split; [done|]); right; (split; [done|]); auto.
      * rewrite (bool_decide_eq_false_2 _ Hres) in Hstep. simpl in Hstep.
        unfold advance_player in Hstep. simpl in Hstep.
        destruct (decide (_num_players s = 0)); [done|].
        injection Hstep as <-. split; [done|].
        exists log, ch. split; [done|]. left. done.
    + destruct (log_action a s) as [s1|] eqn:Hlog; simpl; [|done].
      apply log_action_fields in Hlog as [log ->].
      unfold _update_bid_history, advance_player. intros Hstep.
      right. right. split; [done|]. split; [done|].
      simpl in Hstep.
      destruct (decide (_current_player s = _bid_originator s))
        as [Hsame | Hother]; simpl in Hstep;
        (destruct (np_setitem2 _ _ _ _) as [bh|] eqn:Hbh; simpl in Hstep; [|done]);
        (destruct (decide (_num_players s = 0)); [done|]);
        injection Hstep as <-; (split; [done|]); exists log, bh;
        (split; [done|]);
        [rewrite (bool_decide_eq_true_2 _ Hsame)
        |rewrite (bool_decide_eq_false_2 _ Hother)]; done.
Qed.

Lemma py_append_at_inv {A} (l l' : list (list A)) (i : Z) (x : A) :
  py_append_at l i x = Ok l' →
  ∃ (k : nat) (row : list A),
    norm_index (length l) i = Ok k ∧ l !! k = Some row
    ∧ l' = <[k := row ++ [x]]> l.
Proof.
  unfold py_append_at, py_getitem, py_setitem.
  destruct (norm_index (length l) i) as [k|] eqn:Hk; simpl; [|done].
  destruct (l !! k) as [row|] eqn:Hrow; simpl; [|done].
  intros [= <-]. eauto.
Qed.

(** ** What a transition leaves alone *)

(** X1: a transition never changes the configuration of the state (player
    count, hand length, digit count, deck).  Outside the deal phase it
    leaves the hands as they are; in the deal phase it appends the outcome to
    one hand and changes nothing else: no bid, no counter, no history, no
    outcome, not even the current player. *)
Theorem transition_frame (s s' : LiarsPokerState.t) (a : Z) :
  _apply_action s a = Ok s' →
  (_num_players s' = _num_players s ∧ _hand_length s' = _hand_length s
   ∧ _num_digits s' = _num_digits s ∧ _deck s' = _deck s
   ∧ _is_terminal s' = _is_terminal s)
  ∧ (is_chance_node s = Ok false → hands s' = hands s)
  ∧ (is_chance_node s = Ok true →
     (∃ (k : nat) (hand : list Z),
        norm_index (length (hands s)) (_current_player s) = Ok k
        ∧ hands s !! k = Some hand
        ∧ hands s' = <[k := hand ++ [a]]> (hands s))
     ∧ _current_player s' = _current_player s
     ∧ _current_bid s' = _current_bid s
     ∧ _bid_originator s' = _bid_originator s
     ∧ _num_challenges s' = _num_challenges s
     ∧ is_rebid s' = is_rebid s
     ∧ bid_history s' = bid_history s
     ∧ challenge_history s' = challenge_history s
     ∧ _game_over s' = _game_over s
     ∧ _winner s' = _winner s ∧ _loser s' = _loser s).
Proof.
  intros Hstep.
  destruct (apply_action_inv s s' a Hstep)
    as [(Hchance & hs & Hhs & ->)
       | [(Hchance & -> & Hcb & Hn & log & ch & Hch & Hs')
         | (Hchance & Hbid & Hn & log & bh & Hbh & ->)]].
  - split; [done|]. split; [by rewrite Hchance|]. intros _.
    apply py_append_at_inv in Hhs as (k & hand & Hk & Hhand & ->).
    split; [by exists k, hand|]. done.
  - simpl in Hs'.
    destruct Hs' as [[_ ->] | [_ [-> | ->]]];
      (split; [done|]); (split; [done|]); by rewrite Hchance.
  - split; [done|]. split; [done|]. by rewrite Hchance.
Qed.

(** In the four-bid game the deal of a 2 to the fresh state changes the
    hands only. *)
Lemma transition_frame_witness :
  ∃ s',
    _apply_action (fresh (Some false) small_game 4) 2 = Ok s'
    ∧ hands s' = [[2]; []]
    ∧ _current_player s' = 0
    ∧ _deck s' = [1; 2].
Proof.
  assert (Hstep : _apply_action (fresh (Some false) small_game 4) 2
                  = Ok (set_hands [[2]; []] (fresh (Some false) small_game 4)))
    by (vm_compute; reflexivity).
  destruct (transition_frame _ _ _ Hstep)
    as ((_ & _ & _ & Hdeck & _) & _ & Hdeal).
  destruct Hdeal as (_ & Hcp & _); [vm_compute; reflexivity|].
  eexists. split; [exact Hstep|]. split; [reflexivity|].
  split; [exact Hcp | exact Hdeck].
Defined.

(** ** Histories *)

Lemma entry_after_set (m : list (list Z)) (k k' : nat) (row : list Z) (i j : Z) :
  m !! k = Some row → (k' < length row)%nat →
  (entry m i j = Some 1 → entry (<[k := <[k' := 1]> row]> m) i j = Some 1)
  ∧ (∀ v, entry (<[k := <[k' := 1]> row]> m) i j = Some v →
          v = 1 ∨ entry m i j = Some v)
  ∧ (is_Some (entry (<[k := <[k' := 1]> row]> m) i j) ↔ is_Some (entry m i j)).
Proof.
  intros Hrow Hk'. unfold entry.
  destruct (decide (Z.to_nat i = k)) as [->|Hne].
  - rewrite list_lookup_insert_eq by (by eapply lookup_lt_Some).
    rewrite Hrow. simpl.
    destruct (decide (Z.to_nat j = k')) as [->|Hne'].
    + rewrite list_lookup_insert_eq by done.
      apply lookup_lt_is_Some_2 in Hk'. naive_solver.
    + rewrite list_lookup_insert_ne by done. naive_solver.
  - rewrite list_lookup_insert_ne by done. naive_solver.
Qed.

(** X2: the two histories only grow.  Over any transition an entry that
    is 1 stays 1, an entry that changes becomes 1, and no entry appears or
    disappears; this holds for the bid history and for the challenge
    history. *)
Theorem histories_only_grow (s s' : LiarsPokerState.t) (a i j : Z) :
  _apply_action s a = Ok s' →
  ((entry (bid_history s) i j = Some 1 → entry (bid_history s') i j = Some 1)
   ∧ (∀ v, entry (bid_history s') i j = Some v →
           v = 1 ∨ entry (bid_history s) i j = Some v)
   ∧ (is_Some (entry (bid_history s') i j)
      ↔ is_Some (entry (bid_history s) i j)))
  ∧ ((entry (challenge_history s) i j = Some 1 →
      entry (challenge_history s') i j = Some 1)
     ∧ (∀ v, entry (challenge_history s') i j = Some v →
             v = 1 ∨ entry (challenge_history s) i j = Some v)
     ∧ (is_Some (entry (challenge_history s') i j)
        ↔ is_Some (entry (challenge_history s) i j))).
Proof.
  intros Hstep.
  destruct (apply_action_inv s s' a Hstep)
    as [(Hchance & hs & Hhs & ->)
       | [(Hchance & -> & Hcb & Hn & log & ch & Hch & Hs')
         | (Hchance & Hbid & Hn & log & bh & Hbh & ->)]].
  - simpl. naive_solver.
  - apply np_setitem2_inv in Hch as (k & k' & row & _ & Hrow & Hk' & ->).
    simpl in Hs'.
    destruct Hs' as [[_ ->] | [_ [-> | ->]]]; simpl;
      (split; [naive_solver | by apply entry_after_set]).
  - apply np_setitem2_inv in Hbh as (k & k' & row & _ & Hrow & Hk' & ->).
    simpl. split; [by apply entry_after_set | naive_solver].
Qed.

(** Player 1's challenge of bid 0 in the four-bid game keeps player 0's
    bid in the bid history. *)
Lemma histories_only_grow_witness :
  entry (bid_history (resolved (Some false))) 0 0 = Some 1.
Proof.
  assert (Hstep : _apply_action (after_first_bid (Some false)) Action.CHALLENGE
                  = Ok (resolved (Some false)))
    by (vm_compute; reflexivity).
  destruct (histories_only_grow _ _ _ 0 0 Hstep) as ((Hkeep & _) & _).
  apply Hkeep. vm_compute. reflexivity.
Defined.

(** ** The end of the game *)

(** X3: only a challenge that meets the resolution trigger ends the game,
    and nothing un-ends it: over any transition [gameOver], once true, stays
    true; an action other than [CHALLENGE] changes neither [gameOver] nor
    [winner] nor [loser]; and a game that is over after a transition was
    over before it or was resolved by this challenge. *)
Theorem game_over_is_permanent (s s' : LiarsPokerState.t) (a : Z) :
  _apply_action s a = Ok s' →
  (is_terminal s = true → is_terminal s' = true)
  ∧ (a ≠ Action.CHALLENGE →
     is_terminal s' = is_terminal s
     ∧ _winner s' = _winner s ∧ _loser s' = _loser s)
  ∧ (is_terminal s' = true →
     is_terminal s = true ∨ (a = Action.CHALLENGE ∧ resolves s)).
Proof.
  intros Hstep. unfold is_terminal.
  destruct (apply_action_inv s s' a Hstep)
    as [(Hchance & hs & Hhs & ->)
       | [(Hchance & -> & Hcb & Hn & log & ch & Hch & Hs')
         | (Hchance & Hbid & Hn & log & bh & Hbh & ->)]].
  - simpl. naive_solver.
  - simpl in Hs'.
    destruct Hs' as [[Hres ->] | [Hres [-> | ->]]]; simpl; naive_solver.
  - simpl. naive_solver.
Qed.

(** The bid 0 in the dealt four-bid game ends nothing. *)
Lemma game_over_is_permanent_witness :
  is_terminal (after_first_bid (Some false)) = false
  ∧ _winner (after_first_bid (Some false)) = -1.
Proof.
  assert (Hstep : _apply_action (dealt (Some false) small_game 4) 0
                  = Ok (after_first_bid (Some false)))
    by (vm_compute; reflexivity).
  destruct (game_over_is_permanent _ _ _ Hstep) as (_ & Hbid & _).
  destruct Hbid as (Hover & Hwinner & _); [vm_compute; discriminate|].
  split; [exact Hover | exact Hwinner].
Defined.

(** ** Progress of the bidding *)

(** X4: with at least two players the challenge counter never exceeds the
    player count, and while the game is not over it stays below the count
    that resolves it ([numPlayers], or [numPlayers - 1] in a rebid): every
    transition from a state that is not over keeps this. *)
Theorem challenges_stay_bounded (s s' : LiarsPokerState.t) (a : Z) :
  2 ≤ _num_players s → challenges_bounded s → is_terminal s = false →
  _apply_action s a = Ok s' →
  challenges_bounded s'.
Proof.
  intros Hn [Hrange Hopen] Hover Hstep. specialize (Hopen Hover).
  unfold challenges_bounded.
  destruct (apply_action_inv s s' a Hstep)
    as [(Hchance & hs & Hhs & ->)
       | [(Hchance & -> & Hcb & _ & log & ch & Hch & Hs')
         | (Hchance & Hbid & _ & log & bh & Hbh & ->)]].
  - simpl. done.
  - simpl in Hs'. unfold resolves in Hs'.
    destruct Hs' as [[Hres ->] | [Hres [-> | ->]]]; simpl;
      destruct (is_rebid s); (split; [lia|]); intros ?; try done;
      try (assert (_num_challenges s + 1 ≠ _num_players s - 1)
             by (intros ?; apply Hres; right; done));
      try (assert (_num_challenges s + 1 ≠ _num_players s)
             by (intros ?; apply Hres; left; done));
      lia.
  - simpl. split; [lia|]. intros _. case_bool_decide; lia.
Qed.

(** At the start of the four-bid game the counter is 0; after the bid 0 it
    is 0 again and below the resolving count 1 of the flagged rebid. *)
Lemma challenges_stay_bounded_witness :
  challenges_bounded (after_first_bid (Some false)).
Proof.
  apply (challenges_stay_bounded (dealt (Some false) small_game 4) _ 0).
  - vm_compute. discriminate.
  - by_decide.
  - reflexivity.
  - vm_compute. reflexivity.
Defined.

(** X5: in a well-formed state of the bidding phase that is not over and
    whose challenge counter is below the count that resolves the game (the
    bound every game of two or more players keeps), a challenge, or a bid
    above the standing bid, strictly lowers a measure that is never
    negative: [(totalBids - 1 - currentBid) * (numPlayers + 1) + (numPlayers
    - numChallenges)].  Without the bound on the counter this fails: in a
    game of one player the challenges of a rebid go on for ever. *)
Theorem play_makes_progress (s s' : LiarsPokerState.t) (a : Z) :
  well_formed s → challenges_bounded s →
  is_terminal s = false → is_chance_node s = Ok false →
  a = Action.CHALLENGE ∨ _current_bid s < a →
  _apply_action s a = Ok s' →
  0 ≤ progress_measure s' < progress_measure s.
Proof.
  intros (Hn & _ & _ & _ & _ & _ & _ & Hcb & [Hbh_len _] & _)
    [Hrange Hopen] Hover Hphase Hlegal Hstep.
  specialize (Hopen Hover).
  assert (Hnc : _num_challenges s < _num_players s)
    by (destruct (is_rebid s); lia).
  unfold progress_measure, total_bids in *.
  destruct (apply_action_inv s s' a Hstep)
    as [(Hchance & _)
       | [(_ & -> & _ & _ & log & ch & Hch & Hs')
         | (_ & Hbid & _ & log & bh & Hbh & ->)]].
  - congruence.
  - simpl in Hs'.
    destruct Hs' as [[_ ->] | [_ [-> | ->]]]; simpl; nia.
  - destruct Hlegal as [-> | Habove]; [done|].
    apply np_setitem2_inv in Hbh as (k & _ & _ & Hk & _).
    apply norm_index_ok in Hk as [_ Hk]. simpl. nia.
Qed.

(** Player 1's challenge after the bid 0 in the four-bid game lowers the
    measure from 11 to 10. *)
Lemma play_makes_progress_witness :
  0 ≤ progress_measure (resolved (Some false))
    < progress_measure (after_first_bid (Some false)).
Proof.
  apply (play_makes_progress _ _ Action.CHALLENGE).
  - by_decide.
  - by_decide.
  - reflexivity.
  - vm_compute. reflexivity.
  - left. reflexivity.
  - vm_compute. reflexivity.
Defined.

(** ** Actions the transition refuses *)

(** X6: in the bidding phase, with the action log in place, a challenge
    while no bid stands fails with [AssertionError], and a bid at or beyond
    [totalBids] fails with [IndexError] (the history has no such row). *)
Theorem illegal_actions_are_refused (s : LiarsPokerState.t) :
  well_formed s → log_ready s → is_chance_node s = Ok false →
  (_current_bid s = -1 →
   _apply_action s Action.CHALLENGE = Raise AssertionError)
  ∧ (∀ b, total_bids s ≤ b → b ≠ Action.CHALLENGE →
          _apply_action s b = Raise IndexError).
Proof.
  intros (Hn & _ & _ & _ & _ & Hcp & _ & Hcb & [Hbh_len _] & _) Hlog Hphase.
  unfold log_ready in Hlog.
  destruct (actions s) as [log|] eqn:Hactions; [|done].
  destruct (lookup_lt_is_Some_2 log (Z.to_nat (_current_player s)))
    as [mine Hmine]; [lia|].
  split.
  - intros Hnone. unfold _apply_action. rewrite Hphase. simpl.
    unfold log_action. rewrite Hactions.
    rewrite (py_append_at_in_range log _ mine) by (done || lia). simpl.
    unfold _is_challenge_possible. simpl.
    by rewrite (bool_decide_eq_false_2 (_current_bid s ≠ -1)) by lia.
  - intros b Hb Hne. unfold _apply_action. rewrite Hphase. simpl.
    rewrite decide_False by done.
    unfold log_action. rewrite Hactions.
    rewrite (py_append_at_in_range log _ mine) by (done || lia). simpl.
    unfold _update_bid_history, np_setitem2, py_getitem, norm_index.
    destruct (decide (_current_player s = _bid_originator s)); simpl;
      rewrite !decide_False by lia; done.
Qed.

(** In the dealt four-bid game no bid stands, so [CHALLENGE] is refused,
    and so is the bid 4. *)
Lemma illegal_actions_are_refused_witness :
  _apply_action (dealt (Some false) small_game 4) Action.CHALLENGE
  = Raise AssertionError
  ∧ _apply_action (dealt (Some false) small_game 4) 4 = Raise IndexError.
Proof.
  destruct (illegal_actions_are_refused (dealt (Some false) small_game 4))
    as [Hchallenge Hbid].
  - by_decide.
  - by_decide.
  - vm_compute. reflexivity.
  - split.
    + apply Hchallenge. reflexivity.
    + apply Hbid; [vm_compute; discriminate | vm_compute; discriminate].
Defined.

(** ** Decoding outside the bid space *)

(** X7: [_decode_bid] accepts negative identifiers.  For a positive block
    size and a deck of [numDigits] symbols, an identifier in [-totalBids, 0)
    decodes like the identifier [totalBids] above it (Python's floor division
    and negative list index), while an identifier at or above [totalBids], or
    below [-totalBids], fails with [IndexError]. *)
Theorem decode_bid_out_of_range (s : LiarsPokerState.t) (bid : Z) :
  0 < block_size s →
  length (_deck s) = Z.to_nat (_num_digits s) → 0 ≤ _num_digits s →
  (- total_bids s ≤ bid < 0 →
   _decode_bid s bid = _decode_bid s (bid + total_bids s))
  ∧ (total_bids s ≤ bid ∨ bid < - total_bids s →
     _decode_bid s bid = Raise IndexError).
Proof.
  intros Hblock Hdeck Hnd. rewrite total_bids_blocks.
  unfold _decode_bid. fold (block_size s).
  rewrite !decide_False by lia. split.
  - intros Hbid.
    rewrite (Z.mul_comm (block_size s)), Z.mod_add, Z.div_add by lia.
    assert (Hq : - _num_digits s ≤ bid `div` block_size s < 0).
    { split; [apply Z.div_le_lower_bound; nia|].
      apply Z.div_lt_upper_bound; lia. }
    unfold py_getitem, norm_index. rewrite Hdeck.
    rewrite (decide_False (P := 0 ≤ bid `div` block_size s < _)) by lia.
    rewrite (decide_True (P := - _ ≤ bid `div` block_size s < 0)) by lia.
    rewrite decide_True by lia. simpl.
    by rewrite Z2Nat.id by lia.
  - intros Hbid.
    assert (Hq : _num_digits s ≤ bid `div` block_size s
                 ∨ bid `div` block_size s < - _num_digits s).
    { destruct Hbid as [Hhigh | Hlow].
      - left. apply Z.div_le_lower_bound; nia.
      - right. apply Z.div_lt_upper_bound; nia. }
    unfold py_getitem, norm_index. rewrite Hdeck.
    rewrite !decide_False by lia. done.
Qed.

(** In the four-bid game the identifier -1 decodes like 3, to the count 1
    of digit 2, and the identifier 4 is refused. *)
Lemma decode_bid_out_of_range_witness :
  _decode_bid (dealt (Some false) small_game 4) (-1) = Ok (1, 2)
  ∧ _decode_bid (dealt (Some false) small_game 4) 4 = Raise IndexError.
Proof.
  destruct (decode_bid_out_of_range (dealt (Some false) small_game 4) (-1))
    as [Hwrap _]; [vm_compute; reflexivity | reflexivity | vm_compute; discriminate |].
  destruct (decode_bid_out_of_range (dealt (Some false) small_game 4) 4)
    as [_ Hfail]; [vm_compute; reflexivity | reflexivity | vm_compute; discriminate |].
  split.
  - rewrite Hwrap; [vm_compute; reflexivity|].
    vm_compute. split; discriminate || reflexivity.
  - apply Hfail. left. vm_compute. discriminate.
Defined.

(** ** From the constructors to the first state *)

(** The attributes of a state the constructor returns. *)
Lemma initial_state_fields (base : Inherited) (game : LiarsPoker.t)
    (s : LiarsPokerState.t) :
  new_initial_state base game = Ok s →
  _num_players s = LiarsPoker.num_players game
  ∧ _hand_length s = LiarsPoker.hand_length game
  ∧ _num_digits s = LiarsPoker.num_digits game
  ∧ _deck s = LiarsPoker.deck game
  ∧ hands s = replicate (Z.to_nat (LiarsPoker.num_players game)) []
  ∧ _current_player s = 0 ∧ _bid_originator s = 0 ∧ _current_bid s = -1
  ∧ _num_challenges s = 0 ∧ is_rebid s = false ∧ _game_over s = false
  ∧ _winner s = -1 ∧ _loser s = -1
  ∧ _is_terminal s = base_is_terminal base
  ∧ actions s = base_actions base
  ∧ bid_history s
    = replicate (Z.to_nat (total_bids s)) (replicate (Z.to_nat (_num_players s)) 0)
  ∧ challenge_history s = bid_history s.
Proof.
  unfold new_initial_state, LiarsPokerState.__init__, np_zeros2.
  destruct (decide _) as [|_]; [done|].
  destruct (np_refuses base 0 _ _); [done|].
  destruct (np_refuses base 1 _ _); [done|]. simpl.
  intros [= <-]. unfold total_bids. simpl. repeat (split; [done|]). done.
Qed.

Lemma entry_zeros (rows cols i j : Z) :
  0 ≤ i < rows → 0 ≤ j < cols →
  entry (replicate (Z.to_nat rows) (replicate (Z.to_nat cols) 0)) i j = Some 0.
Proof.
  intros Hi Hj. unfold entry.
  rewrite lookup_replicate_2 by lia. simpl.
  apply lookup_replicate_2. lia.
Qed.

(** X8: for a game object with at least one player, a positive hand
    length and a deck of [num_digits] symbols, [new_initial_state] returns a
    state whenever numpy allocates the two history arrays, and ends in
    numpy's exception when it refuses one of them.  Every state it returns is
    well formed, has no outcome, no challenge and no bid, and is not
    terminal; it has the game's deck, every hand is empty and every entry of
    the two histories is 0. *)
Theorem new_initial_state_starts_well_formed (base : Inherited)
    (game : LiarsPoker.t) :
  1 ≤ LiarsPoker.num_players game → 1 ≤ LiarsPoker.hand_length game →
  0 ≤ LiarsPoker.num_digits game →
  length (LiarsPoker.deck game) = Z.to_nat (LiarsPoker.num_digits game) →
  let rows :=
    LiarsPoker.hand_length game * LiarsPoker.num_digits game
    * LiarsPoker.num_players game in
  let cols := LiarsPoker.num_players game in
  (np_refuses base 0 rows cols = None → np_refuses base 1 rows cols = None →
   ∃ s, new_initial_state base game = Ok s)
  ∧ (∀ e, np_refuses base 0 rows cols = Some e
          ∨ (np_refuses base 0 rows cols = None
             ∧ np_refuses base 1 rows cols = Some e) →
          new_initial_state base game = Raise e)
  ∧ (∀ s, new_initial_state base game = Ok s →
          well_formed s ∧ outcome_consistent s ∧ challenges_bounded s
          ∧ _deck s = LiarsPoker.deck game
          ∧ hands s = replicate (Z.to_nat (LiarsPoker.num_players game)) []
          ∧ _current_bid s = -1 ∧ is_terminal s = false
          ∧ (∀ i j, 0 ≤ i < rows → 0 ≤ j < cols →
                    entry (bid_history s) i j = Some 0
                    ∧ entry (challenge_history s) i j = Some 0)).
Proof.
  intros Hn Hhl Hnd Hdeck rows cols.
  assert (Hrows : ¬ (rows < 0 ∨ cols < 0)) by (subst rows cols; nia).
  split; [|split].
  - intros Hfirst Hsecond.
    unfold new_initial_state, LiarsPokerState.__init__, np_zeros2.
    fold rows cols. rewrite Hfirst, Hsecond.
    destruct (decide (rows < 0 ∨ cols < 0)); [done|]. simpl. eauto.
  - intros e Hrefused.
    unfold new_initial_state, LiarsPokerState.__init__, np_zeros2.
    fold rows cols.
    destruct (decide (rows < 0 ∨ cols < 0)); [done|].
    destruct Hrefused as [-> | [-> ->]]; done.
  - intros s Hs.
    destruct (initial_state_well_formed base game s)
      as (Hwf & Hout & Hhands & Hcp & Hcb & Hover); try done; try lia.
    destruct (initial_state_fields base game s Hs)
      as (Hn' & Hhl' & Hnd' & Hdeck' & _ & _ & _ & _ & Hnc & Hrebid & _ & _ & _
          & _ & _ & Hbh & Hch).
    split; [done|]. split; [done|]. split.
    { unfold challenges_bounded. rewrite Hnc, Hrebid, Hn'. lia. }
    split; [done|]. split; [done|]. split; [done|]. split; [done|].
    intros i j Hi Hj. rewrite Hch, Hbh.
    assert (Htotal : total_bids s = rows)
      by (unfold total_bids; rewrite Hn', Hhl', Hnd'; done).
    rewrite Htotal, Hn'.
    split; apply entry_zeros; done.
Qed.

(** The four-bid game on a machine that allocates what it is asked for. *)
Lemma new_initial_state_starts_well_formed_witness :
  ∃ s,
    new_initial_state (base_with (Some false)) small_game = Ok s
    ∧ well_formed s
    ∧ hands s = [[]; []].
Proof.
  destruct (new_initial_state_starts_well_formed
              (base_with (Some false)) small_game)
    as (Hreturns & _ & Hstate); try reflexivity; try (vm_compute; discriminate).
  destruct Hreturns as [s Hs]; try reflexivity.
  destruct (Hstate s Hs) as (Hwf & _ & _ & _ & Hhands & _).
  exists s. split; [exact Hs|]. split; [exact Hwf | exact Hhands].
Defined.

(** ** Dealing, for every game *)

Lemma deal_step (s : LiarsPokerState.t) (hand : list Z) (others : nat) (a : Z) :
  _is_terminal s = Some false → 1 ≤ _hand_length s →
  _num_players s = Z.of_nat (S (S others)) →
  _current_player s = 0 →
  hands s = hand :: replicate (S others) [] →
  current_player s = Ok CHANCE
  ∧ _apply_action s a
    = Ok (set_hands ((hand ++ [a]) :: replicate (S others) []) s).
Proof.
  intros Hterm Hhl Hn Hcp Hhands.
  assert (Hcurrent : current_player s = Ok CHANCE).
  { unfold current_player. rewrite Hterm, Hhands, Hn.
    rewrite (py_getitem_in_range _ _ []); simpl; [|lia|].
    - rewrite decide_True by lia. done.
    - replace (Z.to_nat (Z.of_nat (S (S others)) - 1)) with (S others) by lia.
      simpl. apply (lookup_replicate_2 (S others) []). lia. }
  split; [done|].
  unfold _apply_action, is_chance_node. rewrite Hcurrent. simpl.
  rewrite Hcp, Hhands. done.
Qed.

(** Every state the loop reaches from the constructor's state of a game
    with two or more players is that state with a longer hand of
    player 0. *)
Lemma dealing_states (base : Inherited) (game : LiarsPoker.t)
    (s0 s : LiarsPokerState.t) :
  base_is_terminal base = Some false →
  2 ≤ LiarsPoker.num_players game → 1 ≤ LiarsPoker.hand_length game →
  new_initial_state base game = Ok s0 →
  reachable_from s0 s →
  ∃ (hand : list Z) (others : nat),
    LiarsPoker.num_players game = Z.of_nat (S (S others))
    ∧ s = set_hands (hand :: replicate (S others) []) s0
    ∧ _is_terminal s0 = Some false ∧ _hand_length s0 = LiarsPoker.hand_length game
    ∧ _num_players s0 = LiarsPoker.num_players game
    ∧ _current_player s0 = 0 ∧ _current_bid s0 = -1 ∧ _bid_originator s0 = 0
    ∧ _num_challenges s0 = 0 ∧ is_rebid s0 = false ∧ _game_over s0 = false.
Proof.
  intros Hterm Hn Hhl Hs0 Hreach.
  assert (Hothers : ∃ others : nat,
             LiarsPoker.num_players game = Z.of_nat (S (S others))).
  { exists (Z.to_nat (LiarsPoker.num_players game - 2)). lia. }
  destruct Hothers as [others Hothers].
  destruct (initial_state_fields base game s0 Hs0)
    as (Hn0 & Hhl0 & _ & _ & Hhands0 & Hcp0 & Horig0 & Hcb0 & Hnc0 & Hrebid0
        & Hover0 & _ & _ & Hterm0 & _).
  rewrite Hterm in Hterm0.
  induction Hreach as [|s s' a Hreach IH Hover Ha Hstep].
  - exists [], others. split; [done|]. split; [|done].
    rewrite Hothers, Nat2Z.id in Hhands0.
    change ([] :: replicate (S others) [])
      with (replicate (S (S others)) ([] : list Z)).
    rewrite <- Hhands0. by destruct s0.
  - destruct IH as (hand & others' & Hn' & -> & IH).
    assert (others' = others) as -> by lia.
    exists (hand ++ [a]), others. split; [done|]. split; [|done].
    destruct (deal_step
                (set_hands (hand :: replicate (S others) []) s0) hand others a)
      as [_ Hdeal]; simpl; try done; try lia.
    rewrite Hdeal in Hstep. by injection Hstep as <-.
Qed.

(** X9: with two or more players and a positive hand length dealing never
    ends.  Every state the loop reaches from the constructor's state (whose
    [_is_terminal] reads false) is a chance node and not terminal, every
    hand but player 0's is empty, no bid stands, and player 0 has no legal
    action. *)
Theorem dealing_never_ends (base : Inherited) (game : LiarsPoker.t)
    (s0 s : LiarsPokerState.t) :
  base_is_terminal base = Some false →
  2 ≤ LiarsPoker.num_players game → 1 ≤ LiarsPoker.hand_length game →
  new_initial_state base game = Ok s0 →
  reachable_from s0 s →
  current_player s = Ok CHANCE
  ∧ is_terminal s = false
  ∧ (∀ p, 1 ≤ p < LiarsPoker.num_players game →
          hands s !! Z.to_nat p = Some [])
  ∧ _current_bid s = -1
  ∧ _legal_actions s 0 = Ok [].
Proof.
  intros Hterm Hn Hhl Hs0 Hreach.
  destruct (dealing_states base game s0 s Hterm Hn Hhl Hs0 Hreach)
    as (hand & others & Hplayers & -> & Hterm0 & Hhl0 & Hn0 & Hcp0 & Hcb0
        & Horig0 & Hnc0 & Hrebid0 & Hover0).
  destruct (deal_step (set_hands (hand :: replicate (S others) []) s0)
              hand others 0) as [Hcurrent _]; simpl; try done; try lia.
  split; [done|]. split; [done|]. split; [|split; [done|]].
  - intros p Hp. simpl.
    replace (Z.to_nat p) with (S (Z.to_nat (p - 1))) by lia.
    simpl. destruct (Z.to_nat (p - 1)) eqn:Hq; [done|].
    simpl. apply lookup_replicate_2. lia.
  - rewrite legal_actions_eq by done. simpl.
    unfold _is_rebid_possible. simpl.
    rewrite Hcb0, Horig0, Hnc0, Hrebid0, Hn0.
    rewrite (bool_decide_eq_false_2 (0 ≠ 0)) by lia.
    rewrite (bool_decide_eq_false_2 (0 = _ - 1)) by lia.
    done.
Qed.

(** Two deals of the digit 1 in the four-bid game: still a chance node,
    player 1's hand still empty. *)
Lemma dealing_never_ends_witness :
  current_player (set_hands [[1; 1]; []] (fresh (Some false) small_game 4))
  = Ok CHANCE
  ∧ hands (set_hands [[1; 1]; []] (fresh (Some false) small_game 4)) !! 1%nat
    = Some [].
Proof.
  destruct (dealing_never_ends (base_with (Some false)) small_game
              (fresh (Some false) small_game 4)
              (set_hands [[1; 1]; []] (fresh (Some false) small_game 4)))
    as (Hcurrent & _ & Hothers & _).
  - reflexivity.
  - vm_compute. discriminate.
  - vm_compute. discriminate.
  - vm_compute. reflexivity.
  - apply (reachable_step _
             (set_hands [[1]; []] (fresh (Some false) small_game 4)) _ 1).
    + apply (reachable_step _ (fresh (Some false) small_game 4) _ 1).
      * apply reachable_start.
      * reflexivity.
      * lia.
      * vm_compute. reflexivity.
    + reflexivity.
    + lia.
    + vm_compute. reflexivity.
  - split; [exact Hcurrent|]. apply (Hothers 1). vm_compute.
    split; discriminate || reflexivity.
Defined.

(** ** Invariants along a play, and the bid branch *)

(** From the dealt four-bid game the bid 0 and the challenge lead to the
    resolved state, which is well formed with a consistent outcome. *)
Lemma reachable_invariants_witness :
  well_formed (resolved (Some false))
  ∧ outcome_consistent (resolved (Some false)).
Proof.
  apply (reachable_invariants (dealt (Some false) small_game 4)).
  - by_decide.
  - by_decide.
  - apply (reachable_step _ (after_first_bid (Some false)) _ Action.CHALLENGE).
    + apply (reachable_step _ (dealt (Some false) small_game 4) _ 0).
      * apply reachable_start.
      * reflexivity.
      * lia.
      * vm_compute. reflexivity.
    + reflexivity.
    + vm_compute. discriminate.
    + vm_compute. reflexivity.
Defined.

(** Player 0's bid 0 in the dealt four-bid game. *)
Lemma bid_transition_witness :
  ∃ s',
    _apply_action (dealt (Some false) small_game 4) 0 = Ok s'
    ∧ _current_bid s' = 0
    ∧ entry (bid_history s') 0 0 = Some 1
    ∧ _current_player s' = 1.
Proof.
  destruct (bid_transition (dealt (Some false) small_game 4) 0 0)
    as (s' & Hstep & Hbid & Hentry & _ & _ & _ & Hnext).
  - by_decide.
  - by_decide.
  - reflexivity.
  - vm_compute. discriminate.
  - vm_compute. split; discriminate || reflexivity.
  - exists s'. split; [exact Hstep|]. split; [exact Hbid|].
    split; [exact Hentry | exact Hnext].
Defined.

(** ** Legal actions at the edges *)

(** X12: the holder of the standing bid, unless a rebid is possible, and
    every player once the highest bid stands, may only challenge; while no
    bid stands such a player has no legal action at all. *)
Theorem only_challenge_is_left (s : LiarsPokerState.t) (p : Z) :
  0 ≤ p →
  (p = _bid_originator s ∧ _is_rebid_possible s = false)
  ∨ total_bids s ≤ _current_bid s + 1 →
  _legal_actions s p
  = Ok (if decide (_current_bid s ≠ -1) then [Action.CHALLENGE] else []).
Proof.
  intros Hp Hedge. rewrite legal_actions_eq by done.
  destruct Hedge as [[-> Hrebid] | Htop].
  - rewrite Hrebid.
    by rewrite (bool_decide_eq_false_2 (_bid_originator s ≠ _bid_originator s))
      by (intros ?; done).
  - unfold py_range. rewrite seqZ_nil by lia.
    by destruct (_ || _).
Qed.

(** In the dealt four-bid game player 0, the initial originator, has no
    legal action; after the bid 3, the highest, player 1 may only
    challenge. *)
Lemma only_challenge_is_left_witness :
  _legal_actions (dealt (Some false) small_game 4) 0 = Ok []
  ∧ _legal_actions (set_current_bid 3 (after_first_bid (Some false))) 1
    = Ok [Action.CHALLENGE].
Proof.
  split.
  - apply (only_challenge_is_left (dealt (Some false) small_game 4) 0); [lia|].
    left. split; reflexivity.
  - apply (only_challenge_is_left
             (set_current_bid 3 (after_first_bid (Some false))) 1); [lia|].
    right. vm_compute. discriminate.
Defined.

(** X13: the list of legal actions is not in ascending order once a bid of
    1 or more stands and a higher bid is legal: it starts with the bid above
    the standing one and ends with [CHALLENGE], which is 1.  When the bid 0
    stands and at least two bids exist, the value 1 is in the list twice. *)
Theorem legal_actions_not_ascending (s : LiarsPokerState.t) (p : Z) :
  0 ≤ p →
  p ≠ _bid_originator s ∨ _is_rebid_possible s = true →
  ∃ l,
    _legal_actions s p = Ok l
    ∧ (1 ≤ _current_bid s → _current_bid s + 1 < total_bids s →
       head l = Some (_current_bid s + 1) ∧ last l = Some Action.CHALLENGE
       ∧ ¬ Sorted Z.le l)
    ∧ (_current_bid s = 0 → 2 ≤ total_bids s → ¬ NoDup l).
Proof.
  intros Hp Hcond. rewrite legal_actions_eq by done.
  assert (Hbids : bool_decide (p ≠ _bid_originator s) || _is_rebid_possible s
                  = true).
  { destruct Hcond as [Hne | ->].
    - by rewrite (bool_decide_eq_true_2 _ Hne).
    - apply orb_true_r. }
  rewrite Hbids. eexists. split; [reflexivity|]. split.
  - intros Hcb Htop. rewrite decide_True by lia.
    unfold py_range. rewrite seqZ_cons by lia. simpl.
    split; [done|]. split; [rewrite app_comm_cons; apply last_snoc|].
    intros Hsorted. apply Sorted_StronglySorted in Hsorted; [|intros ???; lia].
    apply StronglySorted_inv in Hsorted as [_ Hall].
    rewrite Forall_app, Forall_singleton in Hall.
    destruct Hall as [_ Hlast]. unfold Action.CHALLENGE in Hlast. lia.
  - intros Hcb Htop. rewrite Hcb, decide_True by lia.
    unfold py_range. rewrite seqZ_cons by lia. simpl.
    intros Hnodup. apply NoDup_cons in Hnodup as [Hnotin _].
    apply Hnotin. apply elem_of_app. right. by apply list_elem_of_singleton.
Qed.

(** After the bid 1 in the four-bid game player 1's legal actions are
    [[2; 3; 1]]. *)
Lemma legal_actions_not_ascending_witness :
  ∃ l,
    _legal_actions (set_current_bid 1 (after_first_bid (Some false))) 1 = Ok l
    ∧ head l = Some 2 ∧ last l = Some 1 ∧ ¬ Sorted Z.le l.
Proof.
  destruct (legal_actions_not_ascending
              (set_current_bid 1 (after_first_bid (Some false))) 1)
    as (l & Hl & Horder & _); [lia | left; vm_compute; discriminate |].
  destruct Horder as (Hhead & Hlast & Hsorted);
    [vm_compute; discriminate | vm_compute; reflexivity |].
  exists l. split; [exact Hl|]. split; [exact Hhead|].
  split; [exact Hlast | exact Hsorted].
Defined.

(** ** The size of the returns *)

(** X14: in a well-formed state every entry of [returns] lies between
    [-(numPlayers - 1)] and [numPlayers - 1]. *)
Theorem returns_within_bounds (s : LiarsPokerState.t) (x : Z) :
  well_formed s → x ∈ returns s →
  - (_num_players s - 1) ≤ x ≤ _num_players s - 1.
Proof.
  intros (Hn & _ & _ & _ & _ & _ & Horig & _). unfold returns.
  destruct (if decide (_winner s ≠ -1) then _ else _)
    as [bidder others] eqn:Hrewards.
  rewrite list_elem_of_fmap. intros (player & -> & Hplayer).
  apply elem_of_py_range in Hplayer.
  repeat case_decide; simplify_eq; lia.
Qed.

(** The returns [[1; -1]] of the resolved four-bid game lie between -1
    and 1. *)
Lemma returns_within_bounds_witness :
  -1 ∈ returns (resolved (Some false))
  ∧ - (_num_players (resolved (Some false)) - 1) ≤ -1
      ≤ _num_players (resolved (Some false)) - 1.
Proof.
  split; [by_decide|].
  apply (returns_within_bounds (resolved (Some false)) (-1)).
  - by_decide.
  - by_decide.
Defined.

(** ** Chance outcomes *)

(** X15: when [_is_terminal] reads false, throughout the deal of a game
    with two or more players the chance outcomes offered are the symbols of
    the game's deck, in deck order, each with the probability [1.0 /
    num_digits]; with a digit count of 0 the call fails with
    [ZeroDivisionError].  In a state that is not a chance node the call
    fails with [AssertionError], and in a state without the attribute
    [_is_terminal], as the file leaves every state, it fails with
    [AttributeError]. *)
Theorem chance_outcomes_offer_the_deck (base : Inherited) (game : LiarsPoker.t)
    (s0 s : LiarsPokerState.t) :
  base_is_terminal base = Some false →
  2 ≤ LiarsPoker.num_players game → 1 ≤ LiarsPoker.hand_length game →
  new_initial_state base game = Ok s0 →
  reachable_from s0 s →
  (LiarsPoker.num_digits game ≠ 0 →
   chance_outcomes s
   = Ok ((fun digit => (digit, one_over (LiarsPoker.num_digits game)))
         <$> LiarsPoker.deck game))
  ∧ (LiarsPoker.num_digits game = 0 →
     chance_outcomes s = Raise ZeroDivisionError)
  ∧ (∀ s', is_chance_node s' = Ok false →
           chance_outcomes s' = Raise AssertionError)
  ∧ (∀ s', _is_terminal s' = None →
           chance_outcomes s' = Raise AttributeError).
Proof.
  intros Hterm Hn Hhl Hs0 Hreach.
  destruct (dealing_states base game s0 s Hterm Hn Hhl Hs0 Hreach)
    as (hand & others & Hplayers & -> & Hterm0 & Hhl0 & Hn0 & Hcp0 & _).
  destruct (initial_state_fields base game s0 Hs0)
    as (_ & _ & Hnd0 & Hdeck0 & _).
  assert (Hcurrent : current_player
                       (set_hands (hand :: replicate (S others) []) s0)
                     = Ok CHANCE).
  { apply (deal_step _ hand others 0); simpl; done || lia. }
  split; [|split; [|split]].
  - intros Hdigits. unfold chance_outcomes, is_chance_node.
    rewrite Hcurrent. simpl. rewrite Hnd0, Hdeck0.
    by rewrite decide_False.
  - intros Hdigits. unfold chance_outcomes, is_chance_node.
    rewrite Hcurrent. simpl. rewrite Hnd0.
    by rewrite decide_True.
  - intros s' Hphase. unfold chance_outcomes. by rewrite Hphase.
  - intros s' Habsent.
    unfold chance_outcomes, is_chance_node, current_player.
    by rewrite Habsent.
Qed.

(** The fresh state of the four-bid game offers the digits 1 and 2. *)
Lemma chance_outcomes_offer_the_deck_witness :
  chance_outcomes (fresh (Some false) small_game 4)
  = Ok [(1, one_over 2); (2, one_over 2)].
Proof.
  destruct (chance_outcomes_offer_the_deck (base_with (Some false)) small_game
              (fresh (Some false) small_game 4)
              (fresh (Some false) small_game 4))
    as (Hdeck & _).
  - reflexivity.
  - vm_compute. discriminate.
  - vm_compute. discriminate.
  - vm_compute. reflexivity.
  - apply reachable_start.
  - apply Hdeck. vm_compute. discriminate.
Defined.

(** ** Action strings *)

(** X16: the strings tell the actions apart for the chance player and for
    no other: two actions of [player] always have different strings exactly
    when [player] compares equal to the chance identifier (the identifier
    itself or the integer -1).  For every other player all bids read
    alike. *)
Theorem action_strings (player : PlayerId) :
  (∀ a b, _action_to_string player a = _action_to_string player b → a = b)
  ↔ player_id player = player_id CHANCE.
Proof.
  unfold _action_to_string. split.
  - intros Hinj.
    destruct (decide (player_id player = player_id CHANCE)) as [|Hother];
      [done|].
    by specialize (Hinj 0 2 eq_refl).
  - intros Hchance a b. rewrite !decide_True by done. simpl.
    intros [= Heq]. by apply (inj pretty).
Qed.

(** * Further properties of the observer *)

(** ** The layout of the tensor *)










(** ** What [set_from] writes *)

Lemma rebind_lookup (name key : string) (value : LiarsPokerObserver.Entry)
    (o : LiarsPokerObserver.t) :
  LiarsPokerObserver.dict (LiarsPokerObserver.rebind name value o) !! key
  = if decide (key = name)
    then (fun _ => value) <$> LiarsPokerObserver.dict o !! name
    else LiarsPokerObserver.dict o !! key.
Proof.
  unfold LiarsPokerObserver.rebind.
  destruct (decide (is_Some (LiarsPokerObserver.dict o !! name)))
    as [[old Hold] | Hnone]; simpl.
  - rewrite lookup_insert. destruct (decide (key = name)) as [->|Hne].
    + rewrite decide_True by done. by rewrite Hold.
    + by rewrite decide_False by done.
  - destruct (decide (key = name)) as [->|Hne]; [|done].
    by destruct (LiarsPokerObserver.dict o !! name) eqn:Hlook;
      [exfalso; apply Hnone; eauto|].
Qed.

Lemma rebind_sizes (name : string) (value : LiarsPokerObserver.Entry)
    (o : LiarsPokerObserver.t) :
  LiarsPokerObserver.num_players (LiarsPokerObserver.rebind name value o)
  = LiarsPokerObserver.num_players o
  ∧ LiarsPokerObserver.hand_length (LiarsPokerObserver.rebind name value o)
    = LiarsPokerObserver.hand_length o.
Proof. unfold LiarsPokerObserver.rebind. by destruct (decide (is_Some _)). Qed.

(** X18: when the player block is a one-dimensional view, the player is an
    index of it and the private-hand statement is not reached (no such name,
    or the viewer's hand is not complete), [set_from] returns, and the tensor
    holds a single 1, in the player's cell of the player block: neither the
    rebid flag nor the terminal flag nor any history entry is written to the
    tensor.  The four public names, where bound, are bound to the state's
    own values instead, and every other name keeps its binding. *)
Theorem set_from_marks_only_the_player (o : LiarsPokerObserver.t)
    (state : LiarsPokerState.t) (player : Z) (index size : nat) (d : Z) :
  LiarsPokerObserver.dict o !! "player"%string
  = Some (LiarsPokerObserver.View index size [d]) →
  0 ≤ player < Z.of_nat size →
  LiarsPokerObserver.dict o !! "private_hand"%string = None
  ∨ (∃ hand, py_getitem (hands state) player = Ok hand
             ∧ Z.of_nat (length hand) ≠ LiarsPokerObserver.hand_length o) →
  let after := LiarsPokerObserver.set_from o state player in
  after.2 = None
  ∧ LiarsPokerObserver.tensor after.1
    = <[(index + Z.to_nat player)%nat := 1]>
        (replicate (length (LiarsPokerObserver.tensor o)) 0)
  ∧ LiarsPokerObserver.dict after.1 !! "rebid_state"%string
    = (fun _ => LiarsPokerObserver.Flag (is_rebid state))
      <$> LiarsPokerObserver.dict o !! "rebid_state"%string
  ∧ LiarsPokerObserver.dict after.1 !! "counts_state"%string
    = (fun _ => LiarsPokerObserver.Flag (is_terminal state))
      <$> LiarsPokerObserver.dict o !! "counts_state"%string
  ∧ LiarsPokerObserver.dict after.1 !! "bid_history"%string
    = (fun _ => LiarsPokerObserver.Matrix (bid_history state))
      <$> LiarsPokerObserver.dict o !! "bid_history"%string
  ∧ LiarsPokerObserver.dict after.1 !! "challenge_history"%string
    = (fun _ => LiarsPokerObserver.Matrix (challenge_history state))
      <$> LiarsPokerObserver.dict o !! "challenge_history"%string
  ∧ (∀ name, name ∉ public_names →
       LiarsPokerObserver.dict after.1 !! name
       = LiarsPokerObserver.dict o !! name).
Proof.
  intros Hplayer Hindex Hprivate after. subst after.
  unfold LiarsPokerObserver.set_from.
  cbn [LiarsPokerObserver.set_tensor LiarsPokerObserver.dict].
  rewrite decide_True by (rewrite Hplayer; eauto).
  unfold LiarsPokerObserver.write_item.
  cbn [LiarsPokerObserver.set_tensor LiarsPokerObserver.dict
         LiarsPokerObserver.tensor].
  rewrite Hplayer, norm_index_in_range by done.
  cbn [mbind Result_bind].
  assert (Hhand : ∀ o1,
             LiarsPokerObserver.dict o1 = LiarsPokerObserver.dict o →
             LiarsPokerObserver.hand_length o1 = LiarsPokerObserver.hand_length o →
             LiarsPokerObserver.set_private_hand state player o1 = Ok o1).
  { intros o1 Hdict Hlen. unfold LiarsPokerObserver.set_private_hand.
    rewrite Hdict, Hlen.
    destruct Hprivate as [Hnone | (hand & Hget & Hne)].
    - rewrite Hnone. by rewrite decide_False by (intros [? ?]; done).
    - destruct (decide (is_Some _)); [|done].
      rewrite Hget. simpl. by rewrite decide_False. }
  rewrite Hhand by done.
  cbn [fst snd]. split; [done|]. split.
  { rewrite !rebind_tensor. done. }
  repeat split.
  1-4: rewrite !rebind_lookup;
    repeat first [rewrite decide_False by discriminate
                 |rewrite decide_True by reflexivity];
    reflexivity.
  intros name Hname. unfold public_names in Hname.
  rewrite !rebind_lookup.
  rewrite !decide_False; [done|..];
    intros ->; apply Hname; repeat constructor.
Qed.

(** The observer of the four-bid game, viewed by player 1 in the fresh
    state: the tensor is [[0; 1; 0; 0; 0]] whatever the state's flags. *)
Lemma set_from_marks_only_the_player_witness :
  ∃ o,
    LiarsPokerObserver.__init__ single_player_view 2 1 2 = Ok o
    ∧ LiarsPokerObserver.tensor
        (LiarsPokerObserver.set_from o (fresh (Some false) small_game 4) 1).1
      = [0; 1; 0; 0; 0].
Proof.
  eexists. split; [vm_compute; reflexivity|].
  match goal with
  | |- LiarsPokerObserver.tensor (LiarsPokerObserver.set_from ?o ?st ?p).1 = _ =>
      destruct (set_from_marks_only_the_player o st p 0 2 2)
        as (_ & Htensor & _)
  end.
  - vm_compute. reflexivity.
  - lia.
  - right. exists []. split; [vm_compute; reflexivity | vm_compute; discriminate].
  - rewrite Htensor. vm_compute. reflexivity.
Defined.

(** X19: when the player block is a one-dimensional view and the player
    is outside it in either direction, [set_from] ends in an [IndexError]
    and leaves the tensor all zero and the bindings as they were. *)
Theorem set_from_player_out_of_range (o : LiarsPokerObserver.t)
    (state : LiarsPokerState.t) (player : Z) (index size : nat) (d : Z) :
  LiarsPokerObserver.dict o !! "player"%string
  = Some (LiarsPokerObserver.View index size [d]) →
  Z.of_nat size ≤ player ∨ player < - Z.of_nat size →
  LiarsPokerObserver.set_from o state player
  = (LiarsPokerObserver.set_tensor
       (replicate (length (LiarsPokerObserver.tensor o)) 0) o,
     Some IndexError).
Proof.
  intros Hplayer Hout. unfold LiarsPokerObserver.set_from.
  cbn [LiarsPokerObserver.set_tensor LiarsPokerObserver.dict].
  rewrite decide_True by (rewrite Hplayer; eauto).
  unfold LiarsPokerObserver.write_item, norm_index.
  cbn [LiarsPokerObserver.set_tensor LiarsPokerObserver.dict].
  rewrite Hplayer. rewrite !decide_False by lia. done.
Qed.

(** Player 2 of a two-player observer. *)
Lemma set_from_player_out_of_range_witness :
  ∃ o,
    LiarsPokerObserver.__init__ single_player_view 2 1 2 = Ok o
    ∧ (LiarsPokerObserver.set_from o (fresh (Some false) small_game 4) 2).2
      = Some IndexError.
Proof.
  eexists. split; [vm_compute; reflexivity|].
  match goal with
  | |- (LiarsPokerObserver.set_from ?o ?st ?p).2 = _ =>
      rewrite (set_from_player_out_of_range o st p 0 2 2)
  end.
  - reflexivity.
  - vm_compute. reflexivity.
  - left. vm_compute. discriminate.
Defined.

(** ** Reusing an observer *)

Lemma observer_eq (o o' : LiarsPokerObserver.t) :
  LiarsPokerObserver.num_players o' = LiarsPokerObserver.num_players o →
  LiarsPokerObserver.hand_length o' = LiarsPokerObserver.hand_length o →
  LiarsPokerObserver.tensor o' = LiarsPokerObserver.tensor o →
  LiarsPokerObserver.dict o' = LiarsPokerObserver.dict o →
  o' = o.
Proof. destruct o, o'. simpl. by intros -> -> -> ->. Qed.

Lemma player_not_public : "player"%string ∉ public_names.
Proof. by_decide. Qed.

Lemma private_hand_not_public : "private_hand"%string ∉ public_names.
Proof. by_decide. Qed.

(** [write_item] on the player block cannot tell two such observers with
    equal tensors apart, and leaves them so. *)
Lemma write_item_same_views (o o' : LiarsPokerObserver.t) (i v : Z) :
  same_views o o' →
  LiarsPokerObserver.tensor o' = LiarsPokerObserver.tensor o →
  match LiarsPokerObserver.write_item "player" i v o,
        LiarsPokerObserver.write_item "player" i v o' with
  | Ok o1, Ok o1' =>
      same_views o1 o1'
      ∧ LiarsPokerObserver.tensor o1' = LiarsPokerObserver.tensor o1
      ∧ (LiarsPokerObserver.dict o' = LiarsPokerObserver.dict o →
         LiarsPokerObserver.dict o1' = LiarsPokerObserver.dict o1)
  | Raise e, Raise e' => e = e'
  | _, _ => False
  end.
Proof.
  intros (Hn & Hh & Hlen & Hother & Hbound) Htensor.
  unfold LiarsPokerObserver.write_item.
  rewrite (Hother _ player_not_public).
  destruct (LiarsPokerObserver.dict o !! "player"%string)
    as [[index size shape|hand|b|m]|]; try done.
  - destruct shape as [|d [|d' shape]]; try done.
    destruct (norm_index size i); simpl; [|done].
    rewrite Htensor. split; [|done].
    unfold same_views. simpl. rewrite !length_insert. done.
  - destruct (py_setitem hand i v) as [hand'|]; simpl; [|done].
    split; [|split; [done|by intros ->]].
    unfold same_views. simpl. split_and!; try done.
    + intros name Hname. rewrite !lookup_insert.
      case_decide; [done|]. by apply Hother.
    + intros name. rewrite !lookup_insert.
      case_decide; [done|]. apply Hbound.
Qed.

Lemma fmap_const_bound {A B} (v : B) (x y : option A) :
  (is_Some x ↔ is_Some y) → (fun _ => v) <$> x = (fun _ => v) <$> y.
Proof.
  intros [Hxy Hyx]. destruct x, y; try done.
  - by destruct Hxy as [? ?]; [eauto|].
  - by destruct Hyx as [? ?]; [eauto|].
Qed.

(** The bindings after the four rebinding statements of [set_from]. *)
Lemma published_lookup (o : LiarsPokerObserver.t)
    (v1 v2 v3 v4 : LiarsPokerObserver.Entry) (key : string) :
  LiarsPokerObserver.dict
    (LiarsPokerObserver.rebind "challenge_history" v4
       (LiarsPokerObserver.rebind "bid_history" v3
          (LiarsPokerObserver.rebind "counts_state" v2
             (LiarsPokerObserver.rebind "rebid_state" v1 o)))) !! key
  = if decide (key = "challenge_history"%string)
    then (fun _ => v4) <$> LiarsPokerObserver.dict o !! key
    else if decide (key = "bid_history"%string)
    then (fun _ => v3) <$> LiarsPokerObserver.dict o !! key
    else if decide (key = "counts_state"%string)
    then (fun _ => v2) <$> LiarsPokerObserver.dict o !! key
    else if decide (key = "rebid_state"%string)
    then (fun _ => v1) <$> LiarsPokerObserver.dict o !! key
    else LiarsPokerObserver.dict o !! key.
Proof.
  rewrite rebind_lookup.
  destruct (decide (key = "challenge_history"%string)) as [->|_].
  { repeat (rewrite rebind_lookup, decide_False by discriminate). done. }
  rewrite rebind_lookup.
  destruct (decide (key = "bid_history"%string)) as [->|_].
  { repeat (rewrite rebind_lookup, decide_False by discriminate). done. }
  rewrite rebind_lookup.
  destruct (decide (key = "counts_state"%string)) as [->|_].
  { repeat (rewrite rebind_lookup, decide_False by discriminate). done. }
  rewrite rebind_lookup.
  by destruct (decide (key = "rebid_state"%string)) as [->|_].
Qed.

Lemma published_same (o o' : LiarsPokerObserver.t)
    (v1 v2 v3 v4 : LiarsPokerObserver.Entry) :
  same_views o o' →
  LiarsPokerObserver.dict
    (LiarsPokerObserver.rebind "challenge_history" v4
       (LiarsPokerObserver.rebind "bid_history" v3
          (LiarsPokerObserver.rebind "counts_state" v2
             (LiarsPokerObserver.rebind "rebid_state" v1 o'))))
  = LiarsPokerObserver.dict
      (LiarsPokerObserver.rebind "challenge_history" v4
         (LiarsPokerObserver.rebind "bid_history" v3
            (LiarsPokerObserver.rebind "counts_state" v2
               (LiarsPokerObserver.rebind "rebid_state" v1 o)))).
Proof.
  intros (_ & _ & _ & Hother & Hbound).
  apply map_eq. intros key. rewrite !published_lookup.
  repeat (case_decide; [by apply fmap_const_bound|]).
  apply Hother. unfold public_names.
  rewrite !elem_of_cons, elem_of_nil.
  intros [? | [? | [? | [? | []]]]]; congruence.
Qed.

(** The result of [set_from] on two such observers with equal tensors:
    the same exception, the same tensor, and the same observer altogether
    when the call returns. *)
Lemma set_from_same_views (o o' : LiarsPokerObserver.t)
    (state : LiarsPokerState.t) (player : Z) :
  same_views o o' →
  (LiarsPokerObserver.set_from o' state player).2
  = (LiarsPokerObserver.set_from o state player).2
  ∧ LiarsPokerObserver.tensor (LiarsPokerObserver.set_from o' state player).1
    = LiarsPokerObserver.tensor (LiarsPokerObserver.set_from o state player).1
  ∧ ((LiarsPokerObserver.set_from o state player).2 = None →
     LiarsPokerObserver.set_from o' state player
     = LiarsPokerObserver.set_from o state player).
Proof.
  intros Hsame. pose proof Hsame as (Hn & Hh & Hlen & Hother & Hbound).
  unfold LiarsPokerObserver.set_from. rewrite Hlen.
  set (z := LiarsPokerObserver.set_tensor _ o).
  set (z' := LiarsPokerObserver.set_tensor _ o').
  assert (Hz : same_views z z') by done.
  assert (Hzt : LiarsPokerObserver.tensor z' = LiarsPokerObserver.tensor z)
    by done.
  assert (Hfirst :
    match (if decide (is_Some (LiarsPokerObserver.dict z !! "player"%string))
           then LiarsPokerObserver.write_item "player" player 1 z else Ok z),
          (if decide (is_Some (LiarsPokerObserver.dict z' !! "player"%string))
           then LiarsPokerObserver.write_item "player" player 1 z' else Ok z')
    with
    | Ok o1, Ok o1' =>
        same_views o1 o1'
        ∧ LiarsPokerObserver.tensor o1' = LiarsPokerObserver.tensor o1
    | Raise e, Raise e' => e = e'
    | _, _ => False
    end).
  { pose proof Hz as (_ & _ & _ & _ & Hbz).
    destruct (decide (is_Some (LiarsPokerObserver.dict z !! "player"%string)))
      as [Hin | Hout].
    - rewrite (decide_True (P := is_Some (LiarsPokerObserver.dict z' !! _)))
        by (by apply Hbz).
      pose proof (write_item_same_views z z' player 1 Hz Hzt) as Hw.
      destruct (LiarsPokerObserver.write_item "player" player 1 z),
        (LiarsPokerObserver.write_item "player" player 1 z'); try done.
      by destruct Hw as (? & ? & _).
    - rewrite (decide_False (P := is_Some (LiarsPokerObserver.dict z' !! _)))
        by (by rewrite Hbz).
      done. }
  destruct (if decide (is_Some (LiarsPokerObserver.dict z !! "player"%string))
            then _ else _) as [o1|e],
    (if decide (is_Some (LiarsPokerObserver.dict z' !! "player"%string))
     then _ else _) as [o1'|e']; try done; [|by subst].
  destruct Hfirst as [(Hn1 & Hh1 & Hlen1 & Hother1 & Hbound1) Htensor1].
  unfold LiarsPokerObserver.set_private_hand.
  rewrite Hh1.
  destruct (decide (is_Some (LiarsPokerObserver.dict o1 !! "private_hand"%string)))
    as [Hin | Hout];
    [rewrite (decide_True (P := is_Some (LiarsPokerObserver.dict o1' !! _)))
       by (by apply Hbound1)
    |rewrite (decide_False (P := is_Some (LiarsPokerObserver.dict o1' !! _)))
       by (by rewrite Hbound1)].
  - destruct (py_getitem (hands state) player) as [hand|e]; simpl; [|done].
    destruct (decide (Z.of_nat (length hand) = LiarsPokerObserver.hand_length o1));
      [done|].
    simpl. split; [done|]. rewrite !rebind_tensor. split; [done|]. intros _.
    f_equal. apply observer_eq.
    + by rewrite !(proj1 (rebind_sizes _ _ _)).
    + by rewrite !(proj2 (rebind_sizes _ _ _)).
    + by rewrite !rebind_tensor.
    + by apply published_same.
  - simpl. split; [done|]. rewrite !rebind_tensor. split; [done|]. intros _.
    f_equal. apply observer_eq.
    + by rewrite !(proj1 (rebind_sizes _ _ _)).
    + by rewrite !(proj2 (rebind_sizes _ _ _)).
    + by rewrite !rebind_tensor.
    + by apply published_same.
Qed.

Lemma same_views_published (o o1 : LiarsPokerObserver.t)
    (v1 v2 v3 v4 : LiarsPokerObserver.Entry) :
  same_views o o1 →
  same_views o
    (LiarsPokerObserver.rebind "challenge_history" v4
       (LiarsPokerObserver.rebind "bid_history" v3
          (LiarsPokerObserver.rebind "counts_state" v2
             (LiarsPokerObserver.rebind "rebid_state" v1 o1)))).
Proof.
  intros (Hn & Hh & Hlen & Hother & Hbound). unfold same_views.
  rewrite !(proj1 (rebind_sizes _ _ _)), !(proj2 (rebind_sizes _ _ _)).
  rewrite !rebind_tensor.
  split; [done|]. split; [done|]. split; [done|]. split.
  - intros key Hkey. rewrite published_lookup.
    rewrite !decide_False; [by apply Hother|..];
      intros ->; apply Hkey; unfold public_names;
      rewrite !elem_of_cons; auto.
  - intros key. rewrite published_lookup.
    repeat (case_decide; [by rewrite fmap_is_Some|]). apply Hbound.
Qed.

(** [set_from] leaves an observer that it cannot tell from the one it was
    given, unless the player block is a detached list. *)
Lemma set_from_keeps_views (o : LiarsPokerObserver.t)
    (state : LiarsPokerState.t) (player : Z) :
  (∀ hand, LiarsPokerObserver.dict o !! "player"%string
           ≠ Some (LiarsPokerObserver.Digits hand)) →
  same_views o (LiarsPokerObserver.set_from o state player).1.
Proof.
  intros Hplayer. unfold LiarsPokerObserver.set_from.
  set (z := LiarsPokerObserver.set_tensor _ o).
  assert (Hz : same_views o z).
  { unfold same_views, z. simpl. by rewrite length_replicate. }
  assert (Hfirst : ∀ o1,
             (if decide (is_Some (LiarsPokerObserver.dict z !! "player"%string))
              then LiarsPokerObserver.write_item "player" player 1 z
              else Ok z) = Ok o1 →
             same_views o o1).
  { intros o1. destruct (decide (is_Some _)); [|by intros [= <-]].
    unfold LiarsPokerObserver.write_item.
    change (LiarsPokerObserver.dict z) with (LiarsPokerObserver.dict o).
    destruct (LiarsPokerObserver.dict o !! "player"%string)
      as [[index size shape|hand|b|m]|] eqn:Hentry; try done.
    - destruct shape as [|d [|d' shape]]; try done.
      destruct (norm_index size player); simpl; [|done].
      intros [= <-]. unfold same_views. simpl.
      by rewrite length_insert, length_replicate.
    - by destruct (Hplayer hand). }
  destruct (if decide (is_Some _) then _ else _) as [o1|e]; [|done].
  specialize (Hfirst o1 eq_refl).
  destruct (LiarsPokerObserver.set_private_hand state player o1)
    as [o2|e] eqn:Hprivate; [|done].
  apply set_private_hand_same in Hprivate as ->.
  by apply same_views_published.
Qed.

(** X20: an observer can be used again.  For an observer whose player
    block is not a detached list, a second [set_from] after a first one, on
    any state and player, raises what it would raise on the untouched
    observer and leaves the same tensor; when it returns, it leaves exactly
    the observer it would have left: nothing of the first call remains. *)
Theorem set_from_forgets_previous_call (o : LiarsPokerObserver.t)
    (state1 state2 : LiarsPokerState.t) (player1 player2 : Z) :
  (∀ hand, LiarsPokerObserver.dict o !! "player"%string
           ≠ Some (LiarsPokerObserver.Digits hand)) →
  let used := (LiarsPokerObserver.set_from o state1 player1).1 in
  (LiarsPokerObserver.set_from used state2 player2).2
  = (LiarsPokerObserver.set_from o state2 player2).2
  ∧ LiarsPokerObserver.tensor (LiarsPokerObserver.set_from used state2 player2).1
    = LiarsPokerObserver.tensor (LiarsPokerObserver.set_from o state2 player2).1
  ∧ ((LiarsPokerObserver.set_from o state2 player2).2 = None →
     LiarsPokerObserver.set_from used state2 player2
     = LiarsPokerObserver.set_from o state2 player2).
Proof.
  intros Hplayer used. apply set_from_same_views. subst used.
  by apply set_from_keeps_views.
Qed.

(** An observer of the public information with perfect recall for the
    four-bid game, used on the resolved state and then on the state after
    the first bid: the result is the one of a first use on that state. *)
Lemma set_from_forgets_previous_call_witness :
  ∃ o,
    LiarsPokerObserver.__init__
      {| public_info := true; perfect_recall := true; private_info := NONE |}
      2 1 2 = Ok o
    ∧ (LiarsPokerObserver.set_from o (resolved (Some false)) 0).2 = None
    ∧ LiarsPokerObserver.set_from
        (LiarsPokerObserver.set_from o (resolved (Some false)) 0).1
        (after_first_bid (Some false)) 1
      = LiarsPokerObserver.set_from o (after_first_bid (Some false)) 1.
Proof.
  eexists. split; [vm_compute; reflexivity|].
  split; [vm_compute; reflexivity|].
  match goal with
  | |- LiarsPokerObserver.set_from
         (LiarsPokerObserver.set_from ?o ?st1 ?p1).1 ?st2 ?p2 = _ =>
      destruct (set_from_forgets_previous_call o st1 st2 p1 p2)
        as (_ & _ & Hsame)
  end.
  - intros hand. vm_compute. discriminate.
  - apply Hsame. vm_compute. reflexivity.
Defined.
